(** * Search web front-end: request dispatch and error normalisation

    Shallow embedding of [web-app/.ipynb_checkpoints/main-checkpoint.py]
    (the Flask web server): the POST handler
    [search_genappbuilder], the application-wide error handler
    [handle_exception], and the way Flask composes the two for one
    request.

    Conventions.
    - Python [str] values are Rocq [string]s, one [ascii] per character, so
      the model covers the code points U+0000 .. U+00FF.
    - Python [int] values are [Z].
    - A raised exception is a value of [Py.exception]; a computation that
      may raise returns [Py.exception + A].
    - The outbound search call is the only effect: computations thread the
      log of calls made so far (monad [Exec]).
    - The module-level names are fixed once the module is loaded (the
      variables of section [App]); the handlers are also given as
      computations over the current bindings of these names (monad [Run]),
      to state what a request does to them. *)

From Stdlib Require Import String Ascii List ZArith NArith Bool Lia.
From Stdlib Require Import DecimalString DecimalN.
Import ListNotations.

Local Open Scope string_scope.
Local Open Scope Z_scope.

(* ===================================================================== *)
(** * The Python built-ins the handlers rely on *)
(* ===================================================================== *)

Module Py.

(** An exception object, as far as [handle_exception] can observe it.
    [http_description] is [Some d] exactly when
    [isinstance(ex, HTTPException)], with [d = ex.get_description()];
    [quota_message] is [Some m] exactly when
    [isinstance(ex, ResourceExhausted)], with [m = ex.message];
    [exc_str] is [str(ex)]. *)
Record exception : Type := mkException {
  exc_class : string;
  http_description : option string;
  quota_message : option string;
  exc_str : string
}.

Definition ValueError (msg : string) : exception :=
  mkException "ValueError" None None msg.

Definition IndexError (msg : string) : exception :=
  mkException "IndexError" None None msg.

(** [str(ex)] *)
Definition str (ex : exception) : string := exc_str ex.

(** Truthiness of a [str]: [not s] holds for the empty string only. *)
Definition not_ (s : string) : bool :=
  match s with
  | EmptyString => true
  | String _ _ => false
  end.

(** ** [repr] of a string *)

Definition squote : ascii := "'"%char.
Definition dquote : ascii := ascii_of_nat 34.
Definition backslash : ascii := "\"%char.

Definition hex_digit (n : nat) : ascii :=
  ascii_of_nat (if Nat.ltb n 10 then 48 + n else 87 + n).

Definition hex2 (c : ascii) : string :=
  let n := nat_of_ascii c in
  String (hex_digit (Nat.div n 16)) (String (hex_digit (Nat.modulo n 16)) EmptyString).

(** Code points below U+0100 that [str.isprintable] rejects. *)
Definition unprintable (c : ascii) : bool :=
  let n := nat_of_ascii c in
  Nat.ltb n 32 || (Nat.leb 127 n && Nat.leb n 160) || Nat.eqb n 173.

Definition repr_char (quote c : ascii) : string :=
  if Ascii.eqb c quote || Ascii.eqb c backslash then
    String backslash (String c EmptyString)
  else if Ascii.eqb c (ascii_of_nat 9) then "\t"
  else if Ascii.eqb c (ascii_of_nat 10) then "\n"
  else if Ascii.eqb c (ascii_of_nat 13) then "\r"
  else if unprintable c then "\x" ++ hex2 c
  else String c EmptyString.

Fixpoint contains (c : ascii) (s : string) : bool :=
  match s with
  | EmptyString => false
  | String d r => Ascii.eqb c d || contains c r
  end.

Fixpoint repr_body (quote : ascii) (s : string) : string :=
  match s with
  | EmptyString => EmptyString
  | String c r => repr_char quote c ++ repr_body quote r
  end.

Definition repr (s : string) : string :=
  let quote :=
    if contains squote s && negb (contains dquote s) then dquote else squote in
  String quote (repr_body quote s ++ String quote EmptyString).

(** ** [int(s)] for a string argument, base 10 *)

(** Whitespace skipped around the literal: the ASCII blanks, and the two
    blanks of the Latin-1 supplement (U+0085, U+00A0), which the
    interpreter rewrites to a space before parsing. *)
Definition is_space (c : ascii) : bool :=
  let n := nat_of_ascii c in
  (Nat.leb 9 n && Nat.leb n 13) || Nat.eqb n 32 || Nat.eqb n 133 || Nat.eqb n 160.

Definition digit_value (c : ascii) : option Z :=
  let n := nat_of_ascii c in
  if Nat.leb 48 n && Nat.leb n 57 then Some (Z.of_nat (n - 48)) else None.

Definition is_underscore (c : ascii) : bool := Ascii.eqb c "_"%char.

Fixpoint skip_space (l : list ascii) : list ascii :=
  match l with
  | c :: r => if is_space c then skip_space r else l
  | [] => []
  end.

(** Scans digits with single underscores between them.  [prev_us] tells
    that the previous character was an underscore.  Returns the value,
    the number of digits and what follows; [None] on a doubled or a
    trailing underscore. *)
Fixpoint scan_digits (prev_us : bool) (acc : Z) (cnt : N) (l : list ascii)
  : option (Z * N * list ascii) :=
  match l with
  | c :: r =>
      match digit_value c with
      | Some d => scan_digits false (10 * acc + d) (cnt + 1)%N r
      | None =>
          if is_underscore c then
            if prev_us then None else scan_digits true acc cnt r
          else
            if prev_us then None else Some (acc, cnt, l)
      end
  | [] => if prev_us then None else Some (acc, cnt, [])
  end.

Definition N_to_string (n : N) : string :=
  NilZero.string_of_uint (N.to_uint n).

Definition invalid_literal (s : string) : exception :=
  ValueError ("invalid literal for int() with base 10: "
              ++ substring 0 200 (repr s)).

Definition exceeds_limit (limit digits : N) : exception :=
  ValueError ("Exceeds the limit (" ++ N_to_string limit
              ++ " digits) for integer string conversion: value has "
              ++ N_to_string digits
              ++ " digits; use sys.set_int_max_str_digits() to increase the limit").

(** [max_str_digits] is the interpreter's limit on the digits of a
    decimal literal; [0] means no limit. *)
Definition int (max_str_digits : N) (s : string) : exception + Z :=
  let l := skip_space (list_ascii_of_string s) in
  let '(sign, l) :=
    match l with
    | c :: r =>
        if Ascii.eqb c "+"%char then (1, r)
        else if Ascii.eqb c "-"%char then (-1, r)
        else (1, l)
    | [] => (1, l)
    end in
  match scan_digits true 0 0%N l with
  | None => inl (invalid_literal s)
  | Some (v, digits, rest) =>
      if N.eqb digits 0 then inl (invalid_literal s)
      else if N.ltb 0 max_str_digits && N.ltb max_str_digits digits then
        inl (exceeds_limit max_str_digits digits)
      else
        match skip_space rest with
        | [] => inr (sign * v)
        | _ :: _ => inl (invalid_literal s)
        end
  end.

(** ** [lst[i]] for a list and an integer index *)

Definition PY_SSIZE_T_MAX : Z := 2 ^ 63 - 1.
Definition PY_SSIZE_T_MIN : Z := - 2 ^ 63.

Definition list_getitem {A : Type} (lst : list A) (i : Z) : exception + A :=
  if (i <? PY_SSIZE_T_MIN) || (PY_SSIZE_T_MAX <? i) then
    inl (IndexError "cannot fit 'int' into an index-sized integer")
  else
    let i := if i <? 0 then i + Z.of_nat (length lst) else i in
    if i <? 0 then inl (IndexError "list index out of range")
    else
      match nth_error lst (Z.to_nat i) with
      | Some x => inr x
      | None => inl (IndexError "list index out of range")
      end.

End Py.

(* ===================================================================== *)
(** * The application *)
(* ===================================================================== *)

(** ** Static data of the module *)

Record NavLink : Type := mkNavLink {
  link : string;
  name : string;
  icon : string
}.

Definition NAV_LINKS : list NavLink :=
  [ mkNavLink "/" "Widgets" "widgets";
    mkNavLink "/search" "Custom UI" "build";
    mkNavLink "https://github.com/GoogleCloudPlatform/generative-ai/tree/main/search/web-app"
              "Source Code" "code" ].

(** [NAV_LINKS[1]["name"]] *)
Definition search_page_title : string :=
  match nth_error NAV_LINKS 1 with
  | Some l => name l
  | None => ""
  end.

(** One entry of [CUSTOM_UI_DATASTORE_IDS] (module [consts]): a display
    name and the backend engine identifier. *)
Record Datastore : Type := mkDatastore {
  ds_name : string;
  engine_id : string
}.

(** The keyword arguments of one call of [search_enterprise_search]. *)
Record Call : Type := mkCall {
  call_project_id : string;
  call_location : string;
  call_engine_id : string;
  call_search_query : string;
  call_summary_model : option string;
  call_summary_preamble : option string
}.

(** A submitted form: the fields in submission order.  [get] returns the
    first value stored under the key. *)
Definition Form : Type := list (string * string).

Fixpoint form_get (form : Form) (key : string) : option string :=
  match form with
  | [] => None
  | (k, v) :: rest => if String.eqb k key then Some v else form_get rest key
  end.

(** [request.form.get(key, default)] *)
Definition form_get_default (form : Form) (key default : string) : string :=
  match form_get form key with
  | Some v => v
  | None => default
  end.

(** ** Computations that log outbound calls and may raise *)

Definition Exec (A : Type) : Type :=
  list Call -> list Call * (Py.exception + A).

Definition ret {A : Type} (a : A) : Exec A :=
  fun log => (log, inr a).

Definition raise {A : Type} (ex : Py.exception) : Exec A :=
  fun log => (log, inl ex).

Definition bind {A B : Type} (m : Exec A) (k : A -> Exec B) : Exec B :=
  fun log =>
    match m log with
    | (log', inr a) => k a log'
    | (log', inl ex) => (log', inl ex)
    end.

(** A pure evaluation that may raise. *)
Definition eval {A : Type} (r : Py.exception + A) : Exec A :=
  fun log => (log, r).

Declare Scope exec_scope.
Delimit Scope exec_scope with exec.
Notation "x <- m ;; k" := (bind m (fun x => k))
  (at level 61, m at next level, right associativity) : exec_scope.
Notation "' p <- m ;; k" := (bind m (fun x => let 'p := x in k))
  (at level 61, p pattern, m at next level, right associativity) : exec_scope.

(** ** Computations over an explicit state that may raise

    A computation starts from a state and ends with a state, which need
    not be the one it started from, and a value or an exception. *)

Definition Run (S A : Type) : Type := S -> S * (Py.exception + A).

Definition run_ret {S A : Type} (a : A) : Run S A :=
  fun s => (s, inr a).

Definition run_bind {S A B : Type} (m : Run S A) (k : A -> Run S B) : Run S B :=
  fun s =>
    match m s with
    | (s', inr a) => k a s'
    | (s', inl ex) => (s', inl ex)
    end.

(** A pure evaluation that may raise. *)
Definition run_eval {S A : Type} (r : Py.exception + A) : Run S A :=
  fun s => (s, r).

(** Reading the state. *)
Definition run_read {S A : Type} (f : S -> A) : Run S A :=
  fun s => (s, inr (f s)).

Declare Scope run_scope.
Delimit Scope run_scope with run.
Notation "x <- m ;; k" := (run_bind m (fun x => k))
  (at level 61, m at next level, right associativity) : run_scope.
Notation "' p <- m ;; k" := (run_bind m (fun x => let 'p := x in k))
  (at level 61, p pattern, m at next level, right associativity) : run_scope.

(** ** Vocabulary of the statements *)

(** A field that was not submitted, or was submitted empty. *)
Definition absent_or_empty (form : Form) (key : string) : Prop :=
  form_get form key = None \/ form_get form key = Some "".

(** The precedence of the error-handling design: the first candidate that
    is available wins, the fallback is used when none is. *)
Fixpoint first_available (candidates : list (option string))
    (fallback : string) : string :=
  match candidates with
  | [] => fallback
  | Some m :: _ => m
  | None :: rest => first_available rest fallback
  end.

Definition spec_error_message (ex : Py.exception) : string :=
  first_available
    [Py.http_description ex; Py.quota_message ex; Some (Py.str ex)]
    "An Unknown Error Occurred".

(** ** A small deployment, for concrete runs *)

Module Demo.

Definition directory : list Datastore :=
  [ mkDatastore "Alphabet Investor PDFs" "alphabet-pdfs_1695783402380";
    mkDatastore "Contracts" "contracts_1696522322195" ].

Definition ResourceExhausted (message : string) : Py.exception :=
  Py.mkException "ResourceExhausted" None (Some message) ("429 " ++ message).

(** [Exception()], raised without arguments. *)
Definition bare_exception : Py.exception :=
  Py.mkException "Exception" None None "".

Definition Response : Type :=
  (list string * string * string * string * string)%type.

Definition backend (c : Call) : Py.exception + Response :=
  if String.eqb (call_search_query c) "quota" then
    inl (ResourceExhausted "Quota exceeded for search requests")
  else if String.eqb (call_search_query c) "silent" then
    inl bare_exception
  else
    inr ([call_engine_id c ++ "/doc-1"], "summary of " ++ call_search_query c,
         "https://discoveryengine.googleapis.com/" ++ call_engine_id c,
         "{request}", "{response}").

Definition form_of (query selector : string) : Form :=
  [("search_query", query); ("search_engine", selector)].

End Demo.

Section App.

(** Opaque payloads produced by the search call. *)
Variables Results Summary RequestUrl RawRequest RawResponse : Type.

(** Module [consts]. *)
Variable SummaryModel : Type.
Variable Language : Type.
Variable PROJECT_ID : string.
Variable LOCATION : string.
Variable CUSTOM_UI_DATASTORE_IDS : list Datastore.
Variable SUMMARY_MODELS : list SummaryModel.
(** [VALID_LANGUAGES] is not empty: the module reads its first entry
    when it is loaded. *)
Variable first_language : Language.
Variable more_languages : list Language.

(** Interpreter setting read by [int]. *)
Variable int_max_str_digits : N.

Definition Response : Type :=
  (Results * Summary * RequestUrl * RawRequest * RawResponse)%type.

(** Module [genappbuilder_utils]: what the search call returns, or the
    exception it raises, for given arguments. *)
Variable search_backend : Call -> Py.exception + Response.

Definition VALID_LANGUAGES : list Language :=
  first_language :: more_languages.

Record FormOptions : Type := mkFormOptions {
  language_list : list Language;
  default_language : Language
}.

Definition FORM_OPTIONS : FormOptions :=
  mkFormOptions VALID_LANGUAGES first_language.

Definition CUSTOM_UI_SEARCH_ENGINES : list string :=
  map ds_name CUSTOM_UI_DATASTORE_IDS.

(** ** Rendering boundary *)

(** The keyword arguments handed to the template; a keyword that is not
    passed is [None]. *)
Record TemplateContext : Type := mkContext {
  title : string;
  form_options : option FormOptions;
  nav_links : list NavLink;
  search_engines : list string;
  summary_models : list SummaryModel;
  message_error : option string;
  message_success : option string;
  results : option Results;
  summary : option Summary;
  request_url : option RequestUrl;
  raw_request : option RawRequest;
  raw_response : option RawResponse
}.

Record Page : Type := render_template {
  template : string;
  context : TemplateContext
}.

(** ** The outbound call *)

Definition search_enterprise_search
    (project_id location engine_id search_query : string)
    (summary_model summary_preamble : option string) : Exec Response :=
  fun log =>
    let c := mkCall project_id location engine_id search_query
                    summary_model summary_preamble in
    ((log ++ [c])%list, search_backend c).

(** ** Route [POST /search_genappbuilder] *)

Definition search_genappbuilder (form : Form) : Exec Page :=
  let search_query := form_get_default form "search_query" "" in
  if Py.not_ search_query then
    ret (render_template "search.html"
           (mkContext search_page_title None NAV_LINKS
              CUSTOM_UI_SEARCH_ENGINES SUMMARY_MODELS
              (Some "No query provided") None None None None None None))
  else
  let search_engine := form_get_default form "search_engine" "" in
  if Py.not_ search_engine then
    ret (render_template "search.html"
           (mkContext search_page_title None NAV_LINKS
              CUSTOM_UI_SEARCH_ENGINES SUMMARY_MODELS
              (Some "No search engine selected") None None None None None None))
  else
  let summary_model := form_get form "summary_model" in
  let summary_preamble := form_get form "summary_preamble" in
  (i <- eval (Py.int int_max_str_digits search_engine) ;;
   d <- eval (Py.list_getitem CUSTOM_UI_DATASTORE_IDS i) ;;
   '(results, summary, request_url, raw_request, raw_response) <-
      search_enterprise_search PROJECT_ID LOCATION (engine_id d)
        search_query summary_model summary_preamble ;;
   ret (render_template "search.html"
          (mkContext search_page_title None NAV_LINKS
             CUSTOM_UI_SEARCH_ENGINES SUMMARY_MODELS
             None (Some search_query)
             (Some results) (Some summary) (Some request_url)
             (Some raw_request) (Some raw_response))))%exec.

(** ** Application error handler *)

(** The body of [handle_exception] after its first assignment;
    [message_error] is the value that assignment stored. *)
Definition handle_exception_from (message_error : string)
    (ex : Py.exception) : Page :=
  let message_error :=
    match Py.http_description ex with
    | Some description => description
    | None =>
        match Py.quota_message ex with
        | Some message => message
        | None => Py.str ex
        end
    end in
  render_template "search.html"
    (mkContext search_page_title (Some FORM_OPTIONS) NAV_LINKS
       CUSTOM_UI_SEARCH_ENGINES SUMMARY_MODELS
       (Some message_error) None None None None None None).

Definition handle_exception (ex : Py.exception) : Page :=
  handle_exception_from "An Unknown Error Occurred" ex.

(** ** One request

    Flask runs the view and hands any exception it raises to the
    handler registered with [app.errorhandler(Exception)]. *)
Definition handle_search (form : Form) (log : list Call)
  : list Call * Page :=
  match search_genappbuilder form log with
  | (log', inr page) => (log', page)
  | (log', inl ex) => (log', handle_exception ex)
  end.

(** ** The outcome a page shows *)

Inductive SearchOutcome : Type :=
| Success (results : Results) (summary : Summary)
          (request_url : RequestUrl) (raw_request : RawRequest)
          (raw_response : RawResponse) (last_query : string)
| Failure (error_message : string).

Definition outcome (p : Page) : option SearchOutcome :=
  let c := context p in
  match message_error c, message_success c with
  | Some e, None => Some (Failure e)
  | None, Some q =>
      match results c, summary c, request_url c, raw_request c, raw_response c with
      | Some r, Some s, Some u, Some rq, Some rs => Some (Success r s u rq rs q)
      | _, _, _, _, _ => None
      end
  | _, _ => None
  end.

(** ** Route [GET /search] *)

Definition search : Page :=
  render_template "search.html"
    (mkContext search_page_title None NAV_LINKS
       CUSTOM_UI_SEARCH_ENGINES SUMMARY_MODELS
       None None None None None None None).

(** ** Start-up

    [int(os.environ.get("PORT", 8080))]: the port the server listens on.
    [PORT] is the value of the environment variable, when it is set. *)
Definition server_port (PORT : option string) : Py.exception + Z :=
  match PORT with
  | Some s => Py.int int_max_str_digits s
  | None => inr 8080
  end.

(** ** The module as a running process

    A name bound at module level is looked up each time a function that
    mentions it runs, and nothing in the language keeps a function from
    rebinding it or from changing the list it is bound to.  [Globals]
    holds the module-level names the two handlers mention; a [World] is
    the current bindings together with the log of outbound calls.  The
    handlers are written again below as computations over a [World],
    each mention of a name being a read of the current binding. *)

Record Globals : Type := mkGlobals {
  g_PROJECT_ID : string;
  g_LOCATION : string;
  g_CUSTOM_UI_DATASTORE_IDS : list Datastore;
  g_SUMMARY_MODELS : list SummaryModel;
  g_FORM_OPTIONS : FormOptions;
  g_CUSTOM_UI_SEARCH_ENGINES : list string;
  g_NAV_LINKS : list NavLink
}.

Record World : Type := mkWorld {
  globals : Globals;
  calls : list Call
}.

(** The bindings once the module is loaded. *)
Definition module_globals : Globals :=
  mkGlobals PROJECT_ID LOCATION CUSTOM_UI_DATASTORE_IDS SUMMARY_MODELS
            FORM_OPTIONS CUSTOM_UI_SEARCH_ENGINES NAV_LINKS.

(** The value a module-level name is bound to now. *)
Definition load {A : Type} (f : Globals -> A) : Run World A :=
  run_read (fun w => f (globals w)).

Definition run_search_enterprise_search
    (project_id location engine_id search_query : string)
    (summary_model summary_preamble : option string) : Run World Response :=
  fun w =>
    let c := mkCall project_id location engine_id search_query
                    summary_model summary_preamble in
    (mkWorld (globals w) (calls w ++ [c])%list, search_backend c).

(** [search_genappbuilder], reading the module-level names as it goes. *)
Definition run_search_genappbuilder (form : Form) : Run World Page :=
  let search_query := form_get_default form "search_query" "" in
  if Py.not_ search_query then
    (nav <- load g_NAV_LINKS ;;
     l <- run_eval (Py.list_getitem nav 1) ;;
     nav_links <- load g_NAV_LINKS ;;
     search_engines <- load g_CUSTOM_UI_SEARCH_ENGINES ;;
     summary_models <- load g_SUMMARY_MODELS ;;
     run_ret (render_template "search.html"
                (mkContext (name l) None nav_links search_engines summary_models
                   (Some "No query provided") None None None None None None)))%run
  else
  let search_engine := form_get_default form "search_engine" "" in
  if Py.not_ search_engine then
    (nav <- load g_NAV_LINKS ;;
     l <- run_eval (Py.list_getitem nav 1) ;;
     nav_links <- load g_NAV_LINKS ;;
     search_engines <- load g_CUSTOM_UI_SEARCH_ENGINES ;;
     summary_models <- load g_SUMMARY_MODELS ;;
     run_ret (render_template "search.html"
                (mkContext (name l) None nav_links search_engines summary_models
                   (Some "No search engine selected") None None None None None None)))%run
  else
  let summary_model := form_get form "summary_model" in
  let summary_preamble := form_get form "summary_preamble" in
  (project_id <- load g_PROJECT_ID ;;
   location <- load g_LOCATION ;;
   datastores <- load g_CUSTOM_UI_DATASTORE_IDS ;;
   i <- run_eval (Py.int int_max_str_digits search_engine) ;;
   d <- run_eval (Py.list_getitem datastores i) ;;
   '(results, summary, request_url, raw_request, raw_response) <-
      run_search_enterprise_search project_id location (engine_id d)
        search_query summary_model summary_preamble ;;
   nav <- load g_NAV_LINKS ;;
   l <- run_eval (Py.list_getitem nav 1) ;;
   nav_links <- load g_NAV_LINKS ;;
   search_engines <- load g_CUSTOM_UI_SEARCH_ENGINES ;;
   summary_models <- load g_SUMMARY_MODELS ;;
   run_ret (render_template "search.html"
              (mkContext (name l) None nav_links search_engines summary_models
                 None (Some search_query)
                 (Some results) (Some summary) (Some request_url)
                 (Some raw_request) (Some raw_response))))%run.

(** [handle_exception], reading the module-level names as it goes. *)
Definition run_handle_exception (ex : Py.exception) : Run World Page :=
  let message_error := "An Unknown Error Occurred" in
  let message_error :=
    match Py.http_description ex with
    | Some description => description
    | None =>
        match Py.quota_message ex with
        | Some message => message
        | None => Py.str ex
        end
    end in
  (nav <- load g_NAV_LINKS ;;
   l <- run_eval (Py.list_getitem nav 1) ;;
   form_options <- load g_FORM_OPTIONS ;;
   nav_links <- load g_NAV_LINKS ;;
   search_engines <- load g_CUSTOM_UI_SEARCH_ENGINES ;;
   summary_models <- load g_SUMMARY_MODELS ;;
   run_ret (render_template "search.html"
              (mkContext (name l) (Some form_options) nav_links search_engines
                 summary_models (Some message_error)
                 None None None None None None)))%run.

(** One request in the running process: the view, then the registered
    handler on what the view raises.  What the handler itself raises
    leaves the request. *)
Definition run_handle_search (form : Form) : Run World Page :=
  fun w =>
    match run_search_genappbuilder form w with
    | (w', inr page) => (w', inr page)
    | (w', inl ex) => run_handle_exception ex w'
    end.

(* ===================================================================== *)
(** * Facts about the built-ins *)
(* ===================================================================== *)

Lemma not_true_iff (s : string) : Py.not_ s = true <-> s = "".
Proof. destruct s; simpl; split; intro H; try reflexivity; discriminate H. Qed.

Lemma not_false_iff (s : string) : Py.not_ s = false <-> s <> "".
Proof.
  destruct s; simpl; split; intro H; try reflexivity; try discriminate.
  now elim H.
Qed.

Lemma append_cons_nonempty (c : ascii) (s t : string) : String c s ++ t <> "".
Proof. simpl. discriminate. Qed.

(** Every exception [int] raises is a [ValueError] with a message. *)
Lemma int_raises (limit : N) (s : string) (ex : Py.exception) :
  Py.int limit s = inl ex ->
  Py.exc_class ex = "ValueError" /\
  Py.http_description ex = None /\ Py.quota_message ex = None /\
  Py.str ex <> "".
Proof.
  unfold Py.int.
  destruct (match Py.skip_space (list_ascii_of_string s) with
            | [] => (1, Py.skip_space (list_ascii_of_string s))
            | c :: r => _ end) as [sign l].
  destruct (Py.scan_digits true 0 0%N l) as [[[v digits] rest]|].
  - destruct (N.eqb digits 0).
    + intros [= <-]. repeat split. apply append_cons_nonempty.
    + destruct (N.ltb 0 limit && N.ltb limit digits).
      * intros [= <-]. repeat split. apply append_cons_nonempty.
      * destruct (Py.skip_space rest); intros [= <-].
        repeat split. apply append_cons_nonempty.
  - intros [= <-]. repeat split. apply append_cons_nonempty.
Qed.

(** The empty string is not a literal. *)
Lemma int_empty (limit : N) : Py.int limit "" = inl (Py.invalid_literal "").
Proof. reflexivity. Qed.

Lemma int_ok_nonempty (limit : N) (s : string) (n : Z) :
  Py.int limit s = inr n -> s <> "".
Proof. intros H ->. rewrite int_empty in H. discriminate H. Qed.

Section ListIndex.

Context {A : Type}.
Variable lst : list A.

Let len : Z := Z.of_nat (length lst).

(** Every exception an index lookup raises is an [IndexError] with a
    message. *)
Lemma list_getitem_raises (i : Z) (ex : Py.exception) :
  Py.list_getitem lst i = inl ex ->
  Py.exc_class ex = "IndexError" /\
  Py.http_description ex = None /\ Py.quota_message ex = None /\
  Py.str ex <> "".
Proof.
  unfold Py.list_getitem.
  destruct ((i <? Py.PY_SSIZE_T_MIN) || (Py.PY_SSIZE_T_MAX <? i)).
  - intros [= <-]. repeat split. discriminate.
  - destruct ((if i <? 0 then i + Z.of_nat (length lst) else i) <? 0).
    + intros [= <-]. repeat split. discriminate.
    + destruct (nth_error lst _); intros [= <-].
      repeat split. discriminate.
Qed.

(** Indices below [-len] and from [len] on are refused. *)
Lemma list_getitem_out_of_range (i : Z) :
  i < - len \/ len <= i ->
  exists ex, Py.list_getitem lst i = inl ex.
Proof.
  intros Hi. unfold Py.list_getitem.
  destruct ((i <? Py.PY_SSIZE_T_MIN) || (Py.PY_SSIZE_T_MAX <? i)); [eauto|].
  destruct (Z.ltb_spec i 0) as [Hneg|Hpos].
  - destruct (Z.ltb_spec (i + Z.of_nat (length lst)) 0) as [|Hge]; [eauto|].
    exfalso. subst len. lia.
  - destruct (Z.ltb_spec i 0); [lia|].
    destruct (nth_error lst (Z.to_nat i)) eqn:E; [|eauto].
    exfalso. assert (Hs : nth_error lst (Z.to_nat i) <> None) by congruence.
    apply nth_error_Some in Hs. subst len. lia.
Qed.

(** A non-negative index below [len] selects that position. *)
Lemma list_getitem_nonneg (i : Z) :
  0 <= i < len -> len <= Py.PY_SSIZE_T_MAX ->
  exists x, nth_error lst (Z.to_nat i) = Some x /\
            Py.list_getitem lst i = inr x.
Proof.
  intros Hi Hfit. unfold Py.list_getitem.
  destruct (Z.ltb_spec i Py.PY_SSIZE_T_MIN) as [Hlo|_].
  { unfold Py.PY_SSIZE_T_MIN in Hlo. lia. }
  destruct (Z.ltb_spec Py.PY_SSIZE_T_MAX i) as [Hhi|_]; [lia|]. simpl.
  destruct (Z.ltb_spec i 0); [lia|].
  destruct (Z.ltb_spec i 0); [lia|].
  destruct (nth_error lst (Z.to_nat i)) eqn:E; [eauto|].
  apply nth_error_None in E. subst len. lia.
Qed.

(** A negative index from [-len] on counts from the end. *)
Lemma list_getitem_negative (i : Z) :
  - len <= i <= -1 -> len <= Py.PY_SSIZE_T_MAX ->
  exists x, nth_error lst (Z.to_nat (len + i)) = Some x /\
            Py.list_getitem lst i = inr x.
Proof.
  intros Hi Hfit. unfold Py.list_getitem.
  destruct (Z.ltb_spec i Py.PY_SSIZE_T_MIN) as [Hlo|_].
  { unfold Py.PY_SSIZE_T_MIN, Py.PY_SSIZE_T_MAX in *. lia. }
  destruct (Z.ltb_spec Py.PY_SSIZE_T_MAX i) as [Hhi|_].
  { unfold Py.PY_SSIZE_T_MAX in Hhi. lia. }
  simpl.
  destruct (Z.ltb_spec i 0); [|lia].
  destruct (Z.ltb_spec (i + Z.of_nat (length lst)) 0); [subst len; lia|].
  replace (len + i) with (i + Z.of_nat (length lst)) by (subst len; lia).
  destruct (nth_error lst (Z.to_nat (i + Z.of_nat (length lst)))) eqn:E; [eauto|].
  apply nth_error_None in E. subst len. lia.
Qed.

End ListIndex.

(** ** Concrete evaluations of the built-ins *)

Example int_plain : Py.int 4300 "12" = inr 12.
Proof. reflexivity. Qed.

Example int_padded : Py.int 4300 "  -1_0 " = inr (-10).
Proof. reflexivity. Qed.

Example int_signed_zero : Py.int 4300 "-0" = inr 0.
Proof. reflexivity. Qed.

Example int_leading_zeros : Py.int 4300 "+007" = inr 7.
Proof. reflexivity. Qed.

Example int_doubled_underscore :
  Py.int 4300 "1__0" = inl (Py.invalid_literal "1__0").
Proof. reflexivity. Qed.

Example int_blank_after_sign :
  Py.int 4300 "- 1" = inl (Py.invalid_literal "- 1").
Proof. reflexivity. Qed.

Example int_fraction : Py.int 4300 "1.5" = inl (Py.invalid_literal "1.5").
Proof. reflexivity. Qed.

Example int_over_limit :
  Py.int 3 "12345" = inl (Py.exceeds_limit 3 5).
Proof. reflexivity. Qed.

Example invalid_literal_text :
  Py.str (Py.invalid_literal "abc")
  = "invalid literal for int() with base 10: 'abc'".
Proof. reflexivity. Qed.

Example repr_prefers_single_quotes :
  Py.repr "it's" = String Py.dquote ("it's" ++ String Py.dquote "").
Proof. reflexivity. Qed.

Example repr_escapes_control : Py.repr (String (ascii_of_nat 7) "") = "'\x07'".
Proof. reflexivity. Qed.

Example getitem_last : Py.list_getitem [10; 20; 30] (-1) = inr 30.
Proof. reflexivity. Qed.

Example getitem_past_the_end :
  Py.list_getitem [10; 20; 30] 3 = inl (Py.IndexError "list index out of range").
Proof. reflexivity. Qed.

Example getitem_before_the_start :
  Py.list_getitem [10; 20; 30] (-4) = inl (Py.IndexError "list index out of range").
Proof. reflexivity. Qed.

(** An exception that is both HTTP-described and a quota exhaustion is
    shown through its HTTP description. *)
Example precedence_when_both :
  spec_error_message
    (Py.mkException "Both" (Some "<p>Too Many Requests</p>") (Some "quota") "text")
  = "<p>Too Many Requests</p>".
Proof. reflexivity. Qed.

(* ===================================================================== *)
(** * Facts about the handlers *)
(* ===================================================================== *)

Lemma absent_or_empty_default (form : Form) (key : string) :
  absent_or_empty form key <-> form_get_default form key "" = "".
Proof.
  unfold absent_or_empty, form_get_default.
  destruct (form_get form key) as [v|]; split; intro H.
  - destruct H as [H|H]; [discriminate H|]. now injection H.
  - right. now subst v.
  - reflexivity.
  - now left.
Qed.

Lemma present_default (form : Form) (key v : string) :
  form_get form key = Some v -> form_get_default form key "" = v.
Proof. unfold form_get_default. now intros ->. Qed.

Ltac run_view :=
  unfold handle_search, search_genappbuilder, search_enterprise_search,
         bind, eval, ret.

(** What the error handler shows, whatever the first assignment stored. *)
Lemma outcome_handle_exception_from (init : string) (ex : Py.exception) :
  outcome (handle_exception_from init ex) =
  Some (Failure
          match Py.http_description ex with
          | Some description => description
          | None =>
              match Py.quota_message ex with
              | Some message => message
              | None => Py.str ex
              end
          end).
Proof. reflexivity. Qed.

(** An exception of a built-in is shown through its text. *)
Lemma outcome_plain_exception (ex : Py.exception) :
  Py.http_description ex = None -> Py.quota_message ex = None ->
  outcome (handle_exception ex) = Some (Failure (Py.str ex)).
Proof.
  intros Hh Hq. unfold handle_exception.
  rewrite outcome_handle_exception_from, Hh, Hq. reflexivity.
Qed.

Lemma handle_search_no_query (form : Form) (log : list Call) :
  form_get_default form "search_query" "" = "" ->
  fst (handle_search form log) = log /\
  outcome (snd (handle_search form log)) = Some (Failure "No query provided").
Proof. intros Hq. run_view. rewrite Hq. simpl. split; reflexivity. Qed.

Lemma handle_search_no_engine (form : Form) (log : list Call) :
  form_get_default form "search_query" "" <> "" ->
  form_get_default form "search_engine" "" = "" ->
  fst (handle_search form log) = log /\
  outcome (snd (handle_search form log))
  = Some (Failure "No search engine selected").
Proof.
  intros Hq Hs. apply not_false_iff in Hq. run_view.
  rewrite Hq, Hs. simpl. split; reflexivity.
Qed.

(** The view raises what [int] raises, before any call. *)
Lemma handle_search_bad_literal (form : Form) (log : list Call)
    (ex : Py.exception) :
  form_get_default form "search_query" "" <> "" ->
  form_get_default form "search_engine" "" <> "" ->
  Py.int int_max_str_digits (form_get_default form "search_engine" "") = inl ex ->
  search_genappbuilder form log = (log, inl ex) /\
  handle_search form log = (log, handle_exception ex).
Proof.
  intros Hq Hs Hi. apply not_false_iff in Hq, Hs. run_view.
  rewrite Hq, Hs, Hi. split; reflexivity.
Qed.

(** The view raises what the index lookup raises, before any call. *)
Lemma handle_search_bad_index (form : Form) (log : list Call)
    (n : Z) (ex : Py.exception) :
  form_get_default form "search_query" "" <> "" ->
  Py.int int_max_str_digits (form_get_default form "search_engine" "") = inr n ->
  Py.list_getitem CUSTOM_UI_DATASTORE_IDS n = inl ex ->
  search_genappbuilder form log = (log, inl ex) /\
  handle_search form log = (log, handle_exception ex).
Proof.
  intros Hq Hi Hd. pose proof (int_ok_nonempty _ _ _ Hi) as Hs.
  apply not_false_iff in Hq, Hs. run_view.
  rewrite Hq, Hs, Hi, Hd. split; reflexivity.
Qed.

(** A resolved selector leads to one call; the page follows its result. *)
Lemma handle_search_dispatched (form : Form) (log : list Call)
    (n : Z) (d : Datastore) :
  form_get_default form "search_query" "" <> "" ->
  Py.int int_max_str_digits (form_get_default form "search_engine" "") = inr n ->
  Py.list_getitem CUSTOM_UI_DATASTORE_IDS n = inr d ->
  let c := mkCall PROJECT_ID LOCATION (engine_id d)
             (form_get_default form "search_query" "")
             (form_get form "summary_model")
             (form_get form "summary_preamble") in
  fst (search_genappbuilder form log) = (log ++ [c])%list /\
  fst (handle_search form log) = (log ++ [c])%list /\
  (forall ex, search_backend c = inl ex ->
     snd (search_genappbuilder form log) = inl ex /\
     snd (handle_search form log) = handle_exception ex) /\
  (forall r sm u rq rs, search_backend c = inr (r, sm, u, rq, rs) ->
     outcome (snd (handle_search form log))
     = Some (Success r sm u rq rs (form_get_default form "search_query" ""))).
Proof.
  intros Hq Hi Hd c. pose proof (int_ok_nonempty _ _ _ Hi) as Hs.
  apply not_false_iff in Hq, Hs. run_view.
  rewrite Hq, Hs, Hi, Hd. fold c.
  destruct (search_backend c) as [ex|[[[[r sm] u] rq] rs]] eqn:E; simpl.
  - repeat split; try reflexivity; intros; congruence.
  - repeat split; try reflexivity; intros; try discriminate.
    match goal with H : inr _ = inr _ |- _ => injection H as <- <- <- <- <- end.
    reflexivity.
Qed.

Ltac run_process :=
  unfold run_handle_search, run_search_genappbuilder, run_handle_exception,
         run_search_enterprise_search, load, run_bind, run_eval, run_read,
         run_ret;
  cbv beta iota zeta delta [globals calls].

(** The handler makes no call and leaves the bindings alone; its result
    depends on the exception and the bindings only. *)
Lemma run_handle_exception_frame (ex : Py.exception) (g : Globals) :
  exists result : Py.exception + Page,
    forall log,
      run_handle_exception ex (mkWorld g log) = (mkWorld g log, result).
Proof.
  run_process.
  destruct (Py.list_getitem (g_NAV_LINKS g) 1) as [ex'|l];
    eexists; intros log; reflexivity.
Qed.

(** The view makes at most one call and leaves the bindings alone; its
    result depends on the submission and the bindings only. *)
Lemma run_search_genappbuilder_frame (form : Form) (g : Globals) :
  exists (made : list Call) (result : Py.exception + Page),
    (length made <= 1)%nat /\
    forall log,
      run_search_genappbuilder form (mkWorld g log)
      = (mkWorld g (log ++ made)%list, result).
Proof.
  run_process.
  destruct (Py.not_ (form_get_default form "search_query" "")).
  { destruct (Py.list_getitem (g_NAV_LINKS g) 1) as [ex|l];
      eexists [], _; (split; [simpl; lia|]); intros log; rewrite app_nil_r;
      reflexivity. }
  destruct (Py.not_ (form_get_default form "search_engine" "")).
  { destruct (Py.list_getitem (g_NAV_LINKS g) 1) as [ex|l];
      eexists [], _; (split; [simpl; lia|]); intros log; rewrite app_nil_r;
      reflexivity. }
  destruct (Py.int _ _) as [ex|n].
  { eexists [], _; (split; [simpl; lia|]); intros log; rewrite app_nil_r;
      reflexivity. }
  destruct (Py.list_getitem (g_CUSTOM_UI_DATASTORE_IDS g) n) as [ex|d].
  { eexists [], _; (split; [simpl; lia|]); intros log; rewrite app_nil_r;
      reflexivity. }
  destruct (search_backend _) as [ex|[[[[r sm] u] rq] rs]].
  { eexists [_], _; (split; [simpl; lia|]); intros log; reflexivity. }
  destruct (Py.list_getitem (g_NAV_LINKS g) 1) as [ex|l];
    eexists [_], _; (split; [simpl; lia|]); intros log; reflexivity.
Qed.

(** In the running process, the calls one request makes and its result
    depend on the submission and on the current bindings only, and the
    bindings are the same afterwards. *)
Lemma run_handle_search_frame (form : Form) (g : Globals) :
  exists (made : list Call) (result : Py.exception + Page),
    (length made <= 1)%nat /\
    forall log,
      run_handle_search form (mkWorld g log)
      = (mkWorld g (log ++ made)%list, result).
Proof.
  destruct (run_search_genappbuilder_frame form g)
    as (made & [ex|page] & Hlen & Hview).
  - destruct (run_handle_exception_frame ex g) as (result & Hhandler).
    exists made, result. split; [exact Hlen|]. intros log.
    unfold run_handle_search. now rewrite Hview, Hhandler.
  - exists made, (inr page). split; [exact Hlen|]. intros log.
    unfold run_handle_search. now rewrite Hview.
Qed.

(** [Run] itself does not keep the bindings: a computation may end with
    other bindings than it started from. *)
Remark run_may_rebind (g : Globals) :
  exists m : Run World unit,
    forall w, globals w <> g -> globals (fst (m w)) <> globals w.
Proof.
  exists (fun w => (mkWorld g (calls w), inr tt)).
  intros w H. cbn [fst globals]. congruence.
Qed.

(** Started from the bindings of the freshly loaded module, a request in
    the running process makes the calls and shows the page that
    [handle_search] gives. *)
Lemma run_handle_search_agrees (form : Form) (log : list Call) :
  run_handle_search form (mkWorld module_globals log)
  = (mkWorld module_globals (fst (handle_search form log)),
     inr (snd (handle_search form log))).
Proof.
  run_process. run_view. unfold module_globals. cbn [g_NAV_LINKS g_PROJECT_ID
    g_LOCATION g_CUSTOM_UI_DATASTORE_IDS g_SUMMARY_MODELS g_FORM_OPTIONS
    g_CUSTOM_UI_SEARCH_ENGINES].
  change (Py.list_getitem NAV_LINKS 1)
    with (@inr Py.exception NavLink (mkNavLink "/search" "Custom UI" "build")).
  destruct (Py.not_ (form_get_default form "search_query" "")); [reflexivity|].
  destruct (Py.not_ (form_get_default form "search_engine" "")); [reflexivity|].
  destruct (Py.int _ _) as [ex|n]; [reflexivity|].
  destruct (Py.list_getitem _ _) as [ex|d]; [reflexivity|].
  destruct (search_backend _) as [ex|[[[[r sm] u] rq] rs]]; reflexivity.
Qed.

(* ===================================================================== *)
(** * Properties of the dispatch *)
(* ===================================================================== *)

(** C1: when [search_query] is not empty and the selector resolves to an
    entry of the directory, the request makes exactly one outbound call;
    that call carries the entry's engine identifier, the query text as
    submitted and the [summary_model] and [summary_preamble] fields as
    [form.get] returned them (absent is [None], empty is [Some ""]); and
    the five values the call returns, together with the query as success
    marker, are what the page shows. *)
Theorem C1_dispatch_once_and_map_results
    (form : Form) (log : list Call) (q s : string) (n : Z) (d : Datastore) :
  form_get form "search_query" = Some q -> q <> "" ->
  form_get form "search_engine" = Some s ->
  Py.int int_max_str_digits s = inr n ->
  Py.list_getitem CUSTOM_UI_DATASTORE_IDS n = inr d ->
  let c := mkCall PROJECT_ID LOCATION (engine_id d) q
             (form_get form "summary_model")
             (form_get form "summary_preamble") in
  fst (handle_search form log) = (log ++ [c])%list /\
  forall r sm u rq rs,
    search_backend c = inr (r, sm, u, rq, rs) ->
    outcome (snd (handle_search form log)) = Some (Success r sm u rq rs q).
Proof.
  intros Hq Hne Hs Hi Hd c.
  apply present_default in Hq, Hs.
  destruct (handle_search_dispatched form log n d) as (_ & Hlog & _ & Hok).
  - now rewrite Hq.
  - now rewrite Hs.
  - exact Hd.
  - rewrite Hq in Hlog, Hok. split; [exact Hlog|exact Hok].
Qed.

(** C2: a submission whose [search_query] is absent or empty is answered
    with the failure "No query provided", and no outbound call is made. *)
Theorem C2_missing_query (form : Form) (log : list Call) :
  absent_or_empty form "search_query" ->
  fst (handle_search form log) = log /\
  outcome (snd (handle_search form log)) = Some (Failure "No query provided").
Proof.
  intros H. apply absent_or_empty_default in H.
  now apply handle_search_no_query.
Qed.

(** C3: a submission with a non-empty [search_query] whose [search_engine]
    is absent or empty is answered with the failure "No search engine
    selected" without an outbound call; when the query is missing as
    well, the query check comes first and the failure is "No query
    provided". *)
Theorem C3_missing_engine (form : Form) (log : list Call) :
  absent_or_empty form "search_engine" ->
  (forall q, form_get form "search_query" = Some q -> q <> "" ->
     fst (handle_search form log) = log /\
     outcome (snd (handle_search form log))
     = Some (Failure "No search engine selected")) /\
  (absent_or_empty form "search_query" ->
     fst (handle_search form log) = log /\
     outcome (snd (handle_search form log))
     = Some (Failure "No query provided")).
Proof.
  intros He. apply absent_or_empty_default in He. split.
  - intros q Hq Hne. apply present_default in Hq.
    apply handle_search_no_engine; [now rewrite Hq|exact He].
  - intros Hq. apply absent_or_empty_default in Hq.
    now apply handle_search_no_query.
Qed.

(** C4 (amended): a selector that [int] refuses, or that parses to an
    integer [n] with [n < -len] or [len <= n], where [len] is the length
    of the directory, is answered with a failure whose message is not
    empty, and no outbound call is made. *)
Theorem C4_unresolvable_selector
    (form : Form) (log : list Call) (s : string) :
  form_get_default form "search_engine" "" = s ->
  (exists ex, Py.int int_max_str_digits s = inl ex) \/
  (exists n, Py.int int_max_str_digits s = inr n /\
             (n < - Z.of_nat (length CUSTOM_UI_DATASTORE_IDS) \/
              Z.of_nat (length CUSTOM_UI_DATASTORE_IDS) <= n)) ->
  fst (handle_search form log) = log /\
  exists msg, outcome (snd (handle_search form log)) = Some (Failure msg) /\
              msg <> "".
Proof.
  intros Hs Hbad. subst s.
  destruct (string_dec (form_get_default form "search_query" "") "") as [Hq|Hq].
  { destruct (handle_search_no_query form log Hq) as [H1 H2].
    split; [exact H1|]. eexists; split; [exact H2|discriminate]. }
  destruct (string_dec (form_get_default form "search_engine" "") "") as [He|He].
  { destruct (handle_search_no_engine form log Hq He) as [H1 H2].
    split; [exact H1|]. eexists; split; [exact H2|discriminate]. }
  assert (Hcaught : forall ex,
             handle_search form log = (log, handle_exception ex) ->
             Py.http_description ex = None -> Py.quota_message ex = None ->
             Py.str ex <> "" ->
             fst (handle_search form log) = log /\
             exists msg, outcome (snd (handle_search form log)) = Some (Failure msg) /\
                         msg <> "").
  { intros ex -> Hh Hm Hstr. split; [reflexivity|].
    exists (Py.str ex). split; [now apply outcome_plain_exception|exact Hstr]. }
  destruct Hbad as [[ex Hi]|[n [Hi Hrange]]].
  - destruct (handle_search_bad_literal form log ex Hq He Hi) as [_ Hrun].
    destruct (int_raises _ _ _ Hi) as (_ & Hh & Hm & Hstr).
    now apply (Hcaught ex).
  - destruct (list_getitem_out_of_range CUSTOM_UI_DATASTORE_IDS n Hrange) as [ex Hd].
    destruct (handle_search_bad_index form log n ex Hq Hi Hd) as [_ Hrun].
    destruct (list_getitem_raises _ _ _ Hd) as (_ & Hh & Hm & Hstr).
    now apply (Hcaught ex).
Qed.

(** C5: the message shown for a caught exception is the first available
    of its HTTP description, its quota message field and its text, in this
    order, with "An Unknown Error Occurred" after them; so when the search
    call raises a quota-exhaustion exception (one without an HTTP
    description), the failure shows that exception's message field
    unchanged. *)
Theorem C5_quota_message_and_precedence
    (form : Form) (log log' : list Call) (ex : Py.exception) :
  search_genappbuilder form log = (log', inl ex) ->
  handle_search form log = (log', handle_exception ex) /\
  outcome (handle_exception ex) = Some (Failure (spec_error_message ex)) /\
  (forall m, Py.http_description ex = None -> Py.quota_message ex = Some m ->
     outcome (snd (handle_search form log)) = Some (Failure m)).
Proof.
  intros Hrun.
  assert (Hs : handle_search form log = (log', handle_exception ex)).
  { unfold handle_search. now rewrite Hrun. }
  split; [exact Hs|]. split.
  - unfold handle_exception, spec_error_message.
    rewrite outcome_handle_exception_from.
    destruct (Py.http_description ex), (Py.quota_message ex); reflexivity.
  - intros m Hh Hm. rewrite Hs. simpl. unfold handle_exception.
    now rewrite outcome_handle_exception_from, Hh, Hm.
Qed.

(** C7: every request is answered with a page that shows a failure or a
    success; an exception the view raises never leaves the request: the
    answer is then the error handler's page, which shows a failure. *)
Theorem C7_always_an_outcome (form : Form) (log : list Call) :
  ((exists msg, outcome (snd (handle_search form log)) = Some (Failure msg)) \/
   (exists r sm u rq rs q,
      outcome (snd (handle_search form log)) = Some (Success r sm u rq rs q))) /\
  (forall log' ex, search_genappbuilder form log = (log', inl ex) ->
     handle_search form log = (log', handle_exception ex) /\
     exists msg, outcome (handle_exception ex) = Some (Failure msg)).
Proof.
  split.
  - run_view.
    destruct (Py.not_ (form_get_default form "search_query" "")).
    { left. eexists. reflexivity. }
    destruct (Py.not_ (form_get_default form "search_engine" "")).
    { left. eexists. reflexivity. }
    destruct (Py.int _ _) as [ex|n].
    { left. eexists. simpl. apply outcome_handle_exception_from. }
    destruct (Py.list_getitem _ _) as [ex|d].
    { left. eexists. simpl. apply outcome_handle_exception_from. }
    destruct (search_backend _) as [ex|[[[[r sm] u] rq] rs]].
    + left. eexists. simpl. apply outcome_handle_exception_from.
    + right. do 6 eexists. reflexivity.
  - intros log' ex Hrun. split.
    + unfold handle_search. now rewrite Hrun.
    + eexists. apply outcome_handle_exception_from.
Qed.

(** C8: in the running process, where a handler could rebind the
    module-level names or read the log of earlier calls, a request leaves
    every binding as it found it, and what it answers depends on the
    submission and the bindings only: the same submission handled again,
    right after or after any other calls, gets the same answer. *)
Theorem C8_same_input_same_outcome (form : Form) (w : World) :
  globals (fst (run_handle_search form w)) = globals w /\
  snd (run_handle_search form (fst (run_handle_search form w)))
  = snd (run_handle_search form w) /\
  globals (fst (run_handle_search form (fst (run_handle_search form w))))
  = globals w /\
  (forall w', globals w' = globals w ->
     snd (run_handle_search form w') = snd (run_handle_search form w)) /\
  (exists made,
     (length made <= 1)%nat /\
     calls (fst (run_handle_search form w)) = (calls w ++ made)%list /\
     calls (fst (run_handle_search form (fst (run_handle_search form w))))
     = ((calls w ++ made) ++ made)%list) /\
  (globals w = module_globals ->
   snd (run_handle_search form w) = inr (snd (handle_search form (calls w)))).
Proof.
  destruct w as [g log].
  destruct (run_handle_search_frame form g) as (made & result & Hlen & Hrun).
  cbn [globals calls]. rewrite !Hrun. cbn [fst snd globals calls]. rewrite ?Hrun.
  cbn [fst snd globals calls].
  split; [reflexivity|]. split; [reflexivity|]. split; [reflexivity|].
  split; [|split].
  - intros [g' log'] Hg. cbn [globals] in Hg. subst g'. now rewrite Hrun.
  - exists made. split; [exact Hlen|]. split; reflexivity.
  - intros ->. pose proof (Hrun log) as Hlog.
    rewrite run_handle_search_agrees in Hlog.
    injection Hlog as _ Hresult. now symmetry.
Qed.

(** C9: a selector that parses to a negative integer [n] with
    [-len <= n <= -1] resolves: the outbound call is made, with the
    engine identifier of the entry at position [len + n]. *)
Theorem C9_negative_selector_resolves
    (form : Form) (log : list Call) (q s : string) (n : Z) :
  Z.of_nat (length CUSTOM_UI_DATASTORE_IDS) <= Py.PY_SSIZE_T_MAX ->
  form_get form "search_query" = Some q -> q <> "" ->
  form_get form "search_engine" = Some s ->
  Py.int int_max_str_digits s = inr n ->
  - Z.of_nat (length CUSTOM_UI_DATASTORE_IDS) <= n <= -1 ->
  exists d,
    nth_error CUSTOM_UI_DATASTORE_IDS
      (Z.to_nat (Z.of_nat (length CUSTOM_UI_DATASTORE_IDS) + n)) = Some d /\
    fst (handle_search form log)
    = (log ++ [mkCall PROJECT_ID LOCATION (engine_id d) q
                 (form_get form "summary_model")
                 (form_get form "summary_preamble")])%list.
Proof.
  intros Hfit Hq Hne Hs Hi Hn.
  destruct (list_getitem_negative CUSTOM_UI_DATASTORE_IDS n Hn Hfit) as (d & Hnth & Hd).
  exists d. split; [exact Hnth|].
  apply present_default in Hq, Hs.
  destruct (handle_search_dispatched form log n d) as (_ & Hlog & _).
  - now rewrite Hq.
  - now rewrite Hs.
  - exact Hd.
  - now rewrite Hq in Hlog.
Qed.

(** C10: for a caught exception that is neither HTTP-described nor a
    quota exhaustion, the failure shows [str(ex)], also when that text is
    empty; and the value of the handler's first assignment is overwritten
    on every path: the page is the same whatever that assignment stored. *)
Theorem C10_fallback_assignment_is_dead (ex : Py.exception) :
  (Py.http_description ex = None -> Py.quota_message ex = None ->
   outcome (handle_exception ex) = Some (Failure (Py.str ex))) /\
  (forall init, handle_exception_from init ex = handle_exception ex) /\
  (outcome (handle_exception ex) = Some (Failure "An Unknown Error Occurred") ->
   Py.http_description ex = Some "An Unknown Error Occurred" \/
   Py.quota_message ex = Some "An Unknown Error Occurred" \/
   Py.str ex = "An Unknown Error Occurred").
Proof.
  split; [apply outcome_plain_exception|]. split; [reflexivity|].
  unfold handle_exception. rewrite outcome_handle_exception_from.
  destruct (Py.http_description ex) as [description|].
  - intros [= ->]. now left.
  - destruct (Py.quota_message ex) as [message|].
    + intros [= ->]. right. now left.
    + intros [= ->]. right. now right.
Qed.

(* ===================================================================== *)
(** * Further facts about the built-ins *)
(* ===================================================================== *)

(** Scanning the digits of a numeral, with a positive value read so far. *)
Lemma scan_digits_numeral_pos (d : Decimal.uint) :
  forall (acc : positive) (cnt : N),
    Py.scan_digits false (Z.pos acc) cnt
      (list_ascii_of_string (NilEmpty.string_of_uint d))
    = Some (Z.pos (Pos.of_uint_acc d acc),
            (cnt + N.of_nat (String.length (NilEmpty.string_of_uint d)))%N, []).
Proof.
  induction d; intros acc cnt;
    cbn [NilEmpty.string_of_uint list_ascii_of_string String.length
         Py.scan_digits Pos.of_uint_acc];
    [ now rewrite N.add_0_r | .. ];
    change (Py.digit_value _) with (Some 0) || change (Py.digit_value _) with (Some 1)
    || change (Py.digit_value _) with (Some 2) || change (Py.digit_value _) with (Some 3)
    || change (Py.digit_value _) with (Some 4) || change (Py.digit_value _) with (Some 5)
    || change (Py.digit_value _) with (Some 6) || change (Py.digit_value _) with (Some 7)
    || change (Py.digit_value _) with (Some 8) || change (Py.digit_value _) with (Some 9);
    cbv iota beta;
    match goal with
    | |- Py.scan_digits false ?z _ _ = Some (Z.pos (Pos.of_uint_acc _ ?p), _, _) =>
        replace z with (Z.pos p) by lia
    end;
    rewrite IHd; do 3 f_equal; lia.
Qed.

(** Scanning a numeral from the start: leading zeros leave the value at
    zero. *)
Lemma scan_digits_numeral (d : Decimal.uint) :
  forall (b : bool) (cnt : N),
    (b = true -> d <> Decimal.Nil) ->
    Py.scan_digits b 0 cnt (list_ascii_of_string (NilEmpty.string_of_uint d))
    = Some (Z.of_N (Pos.of_uint d),
            (cnt + N.of_nat (String.length (NilEmpty.string_of_uint d)))%N, []).
Proof.
  induction d; intros b cnt Hb;
    cbn [NilEmpty.string_of_uint list_ascii_of_string String.length
         Py.scan_digits Pos.of_uint].
  1: { destruct b; [now elim Hb|]. now rewrite N.add_0_r. }
  1: { change (Py.digit_value _) with (Some 0). cbv iota beta.
       change (10 * 0 + 0) with 0. rewrite IHd by discriminate.
       do 3 f_equal. lia. }
  all: change (Py.digit_value _) with (Some 1) || change (Py.digit_value _) with (Some 2)
    || change (Py.digit_value _) with (Some 3) || change (Py.digit_value _) with (Some 4)
    || change (Py.digit_value _) with (Some 5) || change (Py.digit_value _) with (Some 6)
    || change (Py.digit_value _) with (Some 7) || change (Py.digit_value _) with (Some 8)
    || change (Py.digit_value _) with (Some 9);
    cbv iota beta; cbn [Z.mul Z.add Z.of_N];
    rewrite scan_digits_numeral_pos; do 3 f_equal; lia.
Qed.

Lemma int_numeral_uint (limit : N) (u : Decimal.uint) :
  u <> Decimal.Nil ->
  (limit = 0 \/ N.of_nat (String.length (NilEmpty.string_of_uint u)) <= limit)%N ->
  Py.int limit (NilEmpty.string_of_uint u) = inr (Z.of_N (Pos.of_uint u)).
Proof.
  intros Hu Hlimit.
  pose proof (scan_digits_numeral u true 0%N (fun _ => Hu)) as Hscan.
  assert (Hpos : (0 < N.of_nat (String.length (NilEmpty.string_of_uint u)))%N).
  { destruct u; cbn [NilEmpty.string_of_uint String.length]; try lia. now elim Hu. }
  unfold Py.int.
  assert (Hhead :
    Py.skip_space (list_ascii_of_string (NilEmpty.string_of_uint u))
    = list_ascii_of_string (NilEmpty.string_of_uint u) /\
    match list_ascii_of_string (NilEmpty.string_of_uint u) with
    | c :: r =>
        if Ascii.eqb c "+"%char then (1, r)
        else if Ascii.eqb c "-"%char then (-1, r)
        else (1, list_ascii_of_string (NilEmpty.string_of_uint u))
    | [] => (1, list_ascii_of_string (NilEmpty.string_of_uint u))
    end = (1, list_ascii_of_string (NilEmpty.string_of_uint u))).
  { destruct u; [now elim Hu | split; reflexivity ..]. }
  destruct Hhead as [Hskip Hsign]. rewrite Hskip, Hsign, Hscan.
  rewrite N.add_0_l.
  destruct (N.eqb_spec (N.of_nat (String.length (NilEmpty.string_of_uint u))) 0)
    as [H0|_]; [lia|].
  destruct (N.ltb 0 limit
            && N.ltb limit (N.of_nat (String.length (NilEmpty.string_of_uint u))))
    eqn:Hc.
  - apply andb_true_iff in Hc. destruct Hc as [H1 H2].
    apply N.ltb_lt in H1, H2. lia.
  - cbn [Py.skip_space]. f_equal. lia.
Qed.

(** [int] reads a decimal numeral back as the number it denotes. *)
Lemma int_numeral (limit n : N) :
  (limit = 0 \/ N.of_nat (String.length (Py.N_to_string n)) <= limit)%N ->
  Py.int limit (Py.N_to_string n) = inr (Z.of_N n).
Proof.
  unfold Py.N_to_string.
  pose proof (DecimalN.Unsigned.of_to n) as Hval. unfold N.of_uint in Hval.
  set (u := N.to_uint n) in *. clearbody u. subst n.
  destruct u as [|d|d|d|d|d|d|d|d|d|d].
  1: change (NilZero.string_of_uint Decimal.Nil)
       with (NilEmpty.string_of_uint (Decimal.D0 Decimal.Nil));
     change (Pos.of_uint Decimal.Nil) with (Pos.of_uint (Decimal.D0 Decimal.Nil)).
  all: unfold NilZero.string_of_uint; intros Hlimit;
    apply int_numeral_uint; [discriminate|exact Hlimit].
Qed.

(** The exceptions of [int], with their texts. *)
Lemma int_raises_exact (limit : N) (s : string) (ex : Py.exception) :
  Py.int limit s = inl ex ->
  ex = Py.invalid_literal s \/
  exists digits, (0 < limit < digits)%N /\ ex = Py.exceeds_limit limit digits.
Proof.
  unfold Py.int.
  destruct (match Py.skip_space (list_ascii_of_string s) with
            | [] => (1, Py.skip_space (list_ascii_of_string s))
            | c :: r => _ end) as [sign l].
  destruct (Py.scan_digits true 0 0%N l) as [[[v digits] rest]|].
  - destruct (N.eqb digits 0).
    + intros [= <-]. now left.
    + destruct (N.ltb 0 limit && N.ltb limit digits) eqn:Hc.
      * intros [= <-]. right. exists digits.
        apply andb_true_iff in Hc. destruct Hc as [H1 H2].
        apply N.ltb_lt in H1, H2. split; [lia|reflexivity].
      * destruct (Py.skip_space rest); intros [= <-]. now left.
  - intros [= <-]. now left.
Qed.

(** The entry an index lookup returns is an entry of the list. *)
Lemma list_getitem_In {A : Type} (lst : list A) (i : Z) (x : A) :
  Py.list_getitem lst i = inr x -> In x lst.
Proof.
  unfold Py.list_getitem.
  destruct ((i <? Py.PY_SSIZE_T_MIN) || (Py.PY_SSIZE_T_MAX <? i)); [discriminate|].
  destruct ((if i <? 0 then i + Z.of_nat (length lst) else i) <? 0); [discriminate|].
  destruct (nth_error lst _) eqn:E; [|discriminate].
  intros [= <-]. eapply nth_error_In. exact E.
Qed.

(** The text of the exception for an index outside [-len, len). *)
Lemma list_getitem_out_of_range_exact {A : Type} (lst : list A) (i : Z) :
  i < - Z.of_nat (length lst) \/ Z.of_nat (length lst) <= i ->
  Py.list_getitem lst i
  = inl (Py.IndexError
           (if (i <? Py.PY_SSIZE_T_MIN) || (Py.PY_SSIZE_T_MAX <? i)
            then "cannot fit 'int' into an index-sized integer"
            else "list index out of range")).
Proof.
  intros Hi. unfold Py.list_getitem.
  destruct ((i <? Py.PY_SSIZE_T_MIN) || (Py.PY_SSIZE_T_MAX <? i)); [reflexivity|].
  destruct (Z.ltb_spec i 0) as [Hneg|Hpos].
  - destruct (Z.ltb_spec (i + Z.of_nat (length lst)) 0); [reflexivity|lia].
  - destruct (Z.ltb_spec i 0); [lia|].
    destruct (nth_error lst (Z.to_nat i)) eqn:E; [|reflexivity].
    exfalso. assert (Hs : nth_error lst (Z.to_nat i) <> None) by congruence.
    apply nth_error_Some in Hs. lia.
Qed.

(** An index in [-len, len) is accepted. *)
Lemma list_getitem_in_range {A : Type} (lst : list A) (i : Z) :
  Z.of_nat (length lst) <= Py.PY_SSIZE_T_MAX ->
  - Z.of_nat (length lst) <= i < Z.of_nat (length lst) ->
  exists x, Py.list_getitem lst i = inr x.
Proof.
  intros Hfit Hi. destruct (Z_lt_dec i 0) as [Hneg|Hpos].
  - destruct (list_getitem_negative lst i) as (x & _ & Hx); [lia|exact Hfit|eauto].
  - destruct (list_getitem_nonneg lst i) as (x & _ & Hx); [lia|exact Hfit|eauto].
Qed.

Lemma app_one_neq {A : Type} (l : list A) (x : A) : (l ++ [x])%list <> l.
Proof.
  intros H. apply (f_equal (@length A)) in H.
  rewrite length_app in H. simpl in H. lia.
Qed.

(* ===================================================================== *)
(** * Further properties of the handlers *)
(* ===================================================================== *)

(** X1: a request reaches the search call exactly when its query is not
    empty and its selector parses to an integer [n] with
    [-len <= n < len], [len] being the length of the directory. *)
Theorem X1_call_made_iff (form : Form) (log : list Call) :
  Z.of_nat (length CUSTOM_UI_DATASTORE_IDS) <= Py.PY_SSIZE_T_MAX ->
  fst (handle_search form log) <> log <->
  (form_get_default form "search_query" "" <> "" /\
   exists n,
     Py.int int_max_str_digits (form_get_default form "search_engine" "") = inr n /\
     - Z.of_nat (length CUSTOM_UI_DATASTORE_IDS) <= n
       < Z.of_nat (length CUSTOM_UI_DATASTORE_IDS)).
Proof.
  intros Hfit. split.
  - intros Hcall.
    destruct (string_dec (form_get_default form "search_query" "") "") as [Hq|Hq].
    { elim Hcall. now apply handle_search_no_query. }
    destruct (string_dec (form_get_default form "search_engine" "") "") as [He|He].
    { elim Hcall. now apply handle_search_no_engine. }
    split; [exact Hq|].
    destruct (Py.int int_max_str_digits (form_get_default form "search_engine" ""))
      as [ex|n] eqn:Hi.
    { elim Hcall.
      destruct (handle_search_bad_literal form log ex Hq He Hi) as [_ ->].
      reflexivity. }
    exists n. split; [reflexivity|].
    destruct (Z_lt_dec n (- Z.of_nat (length CUSTOM_UI_DATASTORE_IDS))) as [Hlo|Hlo];
      [|destruct (Z_le_dec (Z.of_nat (length CUSTOM_UI_DATASTORE_IDS)) n) as [Hhi|Hhi];
        [|lia]].
    all: exfalso;
      destruct (list_getitem_out_of_range CUSTOM_UI_DATASTORE_IDS n) as [ex Hd];
      [lia|];
      apply Hcall;
      destruct (handle_search_bad_index form log n ex Hq Hi Hd) as [_ ->];
      reflexivity.
  - intros (Hq & n & Hi & Hn).
    destruct (list_getitem_in_range CUSTOM_UI_DATASTORE_IDS n Hfit Hn) as [d Hd].
    destruct (handle_search_dispatched form log n d Hq Hi Hd) as (_ & -> & _).
    apply app_one_neq.
Qed.

(** X2: a page shows a success only when the search call was made for
    this request and returned: the values shown are the ones it returned,
    and the marker is the submitted query. *)
Theorem X2_success_comes_from_the_call
    (form : Form) (log : list Call)
    (r : Results) (sm : Summary) (u : RequestUrl) (rq : RawRequest)
    (rs : RawResponse) (q : string) :
  outcome (snd (handle_search form log)) = Some (Success r sm u rq rs q) ->
  q = form_get_default form "search_query" "" /\ q <> "" /\
  exists n d,
    Py.int int_max_str_digits (form_get_default form "search_engine" "") = inr n /\
    Py.list_getitem CUSTOM_UI_DATASTORE_IDS n = inr d /\
    fst (handle_search form log)
    = (log ++ [mkCall PROJECT_ID LOCATION (engine_id d) q
                 (form_get form "summary_model")
                 (form_get form "summary_preamble")])%list /\
    search_backend
      (mkCall PROJECT_ID LOCATION (engine_id d) q
         (form_get form "summary_model") (form_get form "summary_preamble"))
    = inr (r, sm, u, rq, rs).
Proof.
  intros Hout.
  destruct (string_dec (form_get_default form "search_query" "") "") as [Hq|Hq].
  { destruct (handle_search_no_query form log Hq) as [_ H]. congruence. }
  destruct (string_dec (form_get_default form "search_engine" "") "") as [He|He].
  { destruct (handle_search_no_engine form log Hq He) as [_ H]. congruence. }
  destruct (Py.int int_max_str_digits (form_get_default form "search_engine" ""))
    as [ex|n] eqn:Hi.
  { destruct (handle_search_bad_literal form log ex Hq He Hi) as [_ H].
    rewrite H in Hout. simpl in Hout. unfold handle_exception in Hout.
    rewrite outcome_handle_exception_from in Hout. discriminate Hout. }
  destruct (Py.list_getitem CUSTOM_UI_DATASTORE_IDS n) as [ex|d] eqn:Hd.
  { destruct (handle_search_bad_index form log n ex Hq Hi Hd) as [_ H].
    rewrite H in Hout. simpl in Hout. unfold handle_exception in Hout.
    rewrite outcome_handle_exception_from in Hout. discriminate Hout. }
  destruct (handle_search_dispatched form log n d Hq Hi Hd)
    as (_ & Hlog & Hex & Hok).
  destruct (search_backend
              (mkCall PROJECT_ID LOCATION (engine_id d)
                 (form_get_default form "search_query" "")
                 (form_get form "summary_model")
                 (form_get form "summary_preamble")))
    as [ex|[[[[r' sm'] u'] rq'] rs']] eqn:Hb.
  { destruct (Hex ex eq_refl) as [_ H]. rewrite H in Hout.
    unfold handle_exception in Hout.
    rewrite outcome_handle_exception_from in Hout. discriminate Hout. }
  rewrite (Hok r' sm' u' rq' rs' eq_refl) in Hout.
  injection Hout as -> -> -> -> -> <-.
  split; [reflexivity|]. split; [exact Hq|].
  exists n, d. repeat split; assumption.
Qed.

(** X3: every call a request adds to the log is made for the configured
    project and location, for an engine identifier of the directory, and
    with the submitted, non-empty query. *)
Theorem X3_calls_stay_within_the_configuration
    (form : Form) (log : list Call) (c : Call) :
  In c (fst (handle_search form log)) ->
  In c log \/
  (call_project_id c = PROJECT_ID /\ call_location c = LOCATION /\
   In (call_engine_id c) (map engine_id CUSTOM_UI_DATASTORE_IDS) /\
   call_search_query c = form_get_default form "search_query" "" /\
   call_search_query c <> "").
Proof.
  intros Hin.
  destruct (string_dec (form_get_default form "search_query" "") "") as [Hq|Hq].
  { destruct (handle_search_no_query form log Hq) as [H _].
    rewrite H in Hin. now left. }
  destruct (string_dec (form_get_default form "search_engine" "") "") as [He|He].
  { destruct (handle_search_no_engine form log Hq He) as [H _].
    rewrite H in Hin. now left. }
  destruct (Py.int int_max_str_digits (form_get_default form "search_engine" ""))
    as [ex|n] eqn:Hi.
  { destruct (handle_search_bad_literal form log ex Hq He Hi) as [_ H].
    rewrite H in Hin. now left. }
  destruct (Py.list_getitem CUSTOM_UI_DATASTORE_IDS n) as [ex|d] eqn:Hd.
  { destruct (handle_search_bad_index form log n ex Hq Hi Hd) as [_ H].
    rewrite H in Hin. now left. }
  destruct (handle_search_dispatched form log n d Hq Hi Hd) as (_ & Hlog & _).
  rewrite Hlog in Hin. apply in_app_or in Hin.
  destruct Hin as [Hin|[<-|[]]]; [now left|right].
  simpl. repeat split; try assumption.
  apply in_map. eapply list_getitem_In. exact Hd.
Qed.

(** X4: the engine names offered by the search page and the engines used
    by the handler are aligned: submitting the decimal numeral of the
    position of a name makes the call with the engine identifier of the
    entry that carries this name. *)
Theorem X4_listed_position_selects_its_engine
    (form : Form) (log : list Call) (q : string) (i : nat) (label : string) :
  Z.of_nat (length CUSTOM_UI_DATASTORE_IDS) <= Py.PY_SSIZE_T_MAX ->
  (int_max_str_digits = 0 \/
   N.of_nat (String.length (Py.N_to_string (N.of_nat i))) <= int_max_str_digits)%N ->
  nth_error CUSTOM_UI_SEARCH_ENGINES i = Some label ->
  form_get form "search_query" = Some q -> q <> "" ->
  form_get form "search_engine" = Some (Py.N_to_string (N.of_nat i)) ->
  exists d,
    nth_error CUSTOM_UI_DATASTORE_IDS i = Some d /\ ds_name d = label /\
    fst (handle_search form log)
    = (log ++ [mkCall PROJECT_ID LOCATION (engine_id d) q
                 (form_get form "summary_model")
                 (form_get form "summary_preamble")])%list.
Proof.
  intros Hfit Hlimit Hlabel Hq Hne Hs.
  unfold CUSTOM_UI_SEARCH_ENGINES in Hlabel. rewrite nth_error_map in Hlabel.
  destruct (nth_error CUSTOM_UI_DATASTORE_IDS i) as [d|] eqn:Hnth; [|discriminate].
  injection Hlabel as Hlabel.
  exists d. split; [reflexivity|]. split; [exact Hlabel|].
  assert (Hi : (i < length CUSTOM_UI_DATASTORE_IDS)%nat).
  { apply nth_error_Some. congruence. }
  destruct (list_getitem_nonneg CUSTOM_UI_DATASTORE_IDS (Z.of_nat i))
    as (d' & Hnth' & Hd); [lia|exact Hfit|].
  rewrite Nat2Z.id, Hnth in Hnth'. injection Hnth' as <-.
  pose proof (int_numeral int_max_str_digits (N.of_nat i) Hlimit) as Hint.
  rewrite nat_N_Z in Hint.
  apply present_default in Hq, Hs.
  destruct (handle_search_dispatched form log (Z.of_nat i) d) as (_ & Hlog & _).
  - now rewrite Hq.
  - now rewrite Hs.
  - exact Hd.
  - now rewrite Hq in Hlog.
Qed.

(** X5: whatever is submitted, the answer is the page of [GET /search]:
    same template, title, navigation links, engine names and summary
    models; only the message and result fields (and, from the error
    handler, the form options) are added. *)
Theorem X5_every_answer_is_the_search_page (form : Form) (log : list Call) :
  template (snd (handle_search form log)) = template search /\
  title (context (snd (handle_search form log))) = title (context search) /\
  nav_links (context (snd (handle_search form log))) = nav_links (context search) /\
  search_engines (context (snd (handle_search form log)))
  = search_engines (context search) /\
  summary_models (context (snd (handle_search form log)))
  = summary_models (context search).
Proof.
  run_view.
  destruct (Py.not_ (form_get_default form "search_query" ""));
    [repeat split|].
  destruct (Py.not_ (form_get_default form "search_engine" ""));
    [repeat split|].
  destruct (Py.int _ _) as [ex|n]; [repeat split|].
  destruct (Py.list_getitem _ _) as [ex|d]; [repeat split|].
  destruct (search_backend _) as [ex|[[[[r sm] u] rq] rs]]; repeat split.
Qed.

(** X6: a page never mixes an error with results: when it carries an
    error message it carries no success marker and none of the five
    result fields, and when it carries none it carries all of them. *)
Theorem X6_error_and_results_exclude_each_other (form : Form) (log : list Call) :
  let c := context (snd (handle_search form log)) in
  (message_error c <> None /\ message_success c = None /\ results c = None /\
   summary c = None /\ request_url c = None /\ raw_request c = None /\
   raw_response c = None) \/
  (message_error c = None /\ message_success c <> None /\ results c <> None /\
   summary c <> None /\ request_url c <> None /\ raw_request c <> None /\
   raw_response c <> None).
Proof.
  run_view.
  destruct (Py.not_ (form_get_default form "search_query" ""));
    [left; repeat split; discriminate|].
  destruct (Py.not_ (form_get_default form "search_engine" ""));
    [left; repeat split; discriminate|].
  destruct (Py.int _ _) as [ex|n]; [left; repeat split; discriminate|].
  destruct (Py.list_getitem _ _) as [ex|d]; [left; repeat split; discriminate|].
  destruct (search_backend _) as [ex|[[[[r sm] u] rq] rs]];
    [left|right]; repeat split; discriminate.
Qed.

(** X7: the handler reads four fields of the form and nothing else: two
    submissions that agree on [search_query], [search_engine],
    [summary_model] and [summary_preamble] are answered alike and lead to
    the same calls. *)
Theorem X7_only_four_fields_are_read (form1 form2 : Form) (log : list Call) :
  (forall key,
     In key ["search_query"; "search_engine"; "summary_model"; "summary_preamble"] ->
     form_get form1 key = form_get form2 key) ->
  handle_search form1 log = handle_search form2 log.
Proof.
  intros Hsame.
  unfold handle_search, search_genappbuilder, form_get_default.
  rewrite (Hsame "search_query"), (Hsame "search_engine"),
          (Hsame "summary_model"), (Hsame "summary_preamble")
    by (simpl; auto 6).
  reflexivity.
Qed.

(** X8: the selector is read through its integer value only: two
    submissions that differ in how the selector is written, but not in
    the integer it parses to, are answered alike. *)
Theorem X8_selector_counts_by_its_value
    (form1 form2 : Form) (log : list Call) (n : Z) :
  (forall key,
     In key ["search_query"; "summary_model"; "summary_preamble"] ->
     form_get form1 key = form_get form2 key) ->
  Py.int int_max_str_digits (form_get_default form1 "search_engine" "") = inr n ->
  Py.int int_max_str_digits (form_get_default form2 "search_engine" "") = inr n ->
  handle_search form1 log = handle_search form2 log.
Proof.
  intros Hsame H1 H2.
  pose proof (int_ok_nonempty _ _ _ H1) as Hs1.
  pose proof (int_ok_nonempty _ _ _ H2) as Hs2.
  apply not_false_iff in Hs1, Hs2.
  unfold handle_search, search_genappbuilder, bind, eval.
  rewrite Hs1, Hs2, H1, H2.
  unfold form_get_default.
  rewrite (Hsame "search_query"), (Hsame "summary_model"),
          (Hsame "summary_preamble") by (simpl; auto 6).
  reflexivity.
Qed.

(** X9: a selector that parses to an integer outside [-len, len) is
    answered, without a call, with the text of the index error: "list
    index out of range", or, beyond the range of an index, "cannot fit
    'int' into an index-sized integer". *)
Theorem X9_out_of_range_message (form : Form) (log : list Call) (n : Z) :
  form_get_default form "search_query" "" <> "" ->
  Py.int int_max_str_digits (form_get_default form "search_engine" "") = inr n ->
  n < - Z.of_nat (length CUSTOM_UI_DATASTORE_IDS) \/
  Z.of_nat (length CUSTOM_UI_DATASTORE_IDS) <= n ->
  fst (handle_search form log) = log /\
  outcome (snd (handle_search form log))
  = Some (Failure
            (if (n <? Py.PY_SSIZE_T_MIN) || (Py.PY_SSIZE_T_MAX <? n)
             then "cannot fit 'int' into an index-sized integer"
             else "list index out of range")).
Proof.
  intros Hq Hi Hn.
  pose proof (list_getitem_out_of_range_exact CUSTOM_UI_DATASTORE_IDS n Hn) as Hd.
  destruct (handle_search_bad_index form log n _ Hq Hi Hd) as [_ ->].
  split; reflexivity.
Qed.

Lemma length_list_ascii_of_string (s : string) :
  length (list_ascii_of_string s) = String.length s.
Proof. induction s as [|c s IH]; simpl; congruence. Qed.

Lemma skip_space_length (l : list ascii) :
  (length (Py.skip_space l) <= length l)%nat.
Proof.
  induction l as [|c l IH]; simpl; [lia|].
  destruct (Py.is_space c); simpl; lia.
Qed.

(** The scan counts no more digits than there are characters. *)
Lemma scan_digits_count (l : list ascii) :
  forall (b : bool) (acc : Z) (cnt : N) (v : Z) (cnt' : N) (rest : list ascii),
    Py.scan_digits b acc cnt l = Some (v, cnt', rest) ->
    (cnt' <= cnt + N.of_nat (length l))%N.
Proof.
  induction l as [|c l IH]; intros b acc cnt v cnt' rest; simpl.
  - destruct b; [discriminate|]. intros [= _ <- _]. lia.
  - destruct (Py.digit_value c) as [d|].
    + intros H. apply IH in H. lia.
    + destruct (Py.is_underscore c), b; try discriminate.
      * intros H. apply IH in H. lia.
      * intros [= _ <- _]. lia.
Qed.

(** A selector no longer than the digit limit is never refused for its
    number of digits. *)
Lemma int_refused_within_limit (limit : N) (s : string) (ex : Py.exception) :
  (limit = 0 \/ N.of_nat (String.length s) <= limit)%N ->
  Py.int limit s = inl ex -> ex = Py.invalid_literal s.
Proof.
  intros Hlimit. unfold Py.int.
  pose proof (skip_space_length (list_ascii_of_string s)) as Hskip.
  rewrite length_list_ascii_of_string in Hskip.
  set (l0 := Py.skip_space (list_ascii_of_string s)) in *.
  assert (Hsign : forall sign l,
    (length l <= length l0)%nat ->
    match Py.scan_digits true 0 0%N l with
    | None => inl (Py.invalid_literal s)
    | Some (v, digits, rest) =>
        if N.eqb digits 0 then inl (Py.invalid_literal s)
        else if N.ltb 0 limit && N.ltb limit digits then
          inl (Py.exceeds_limit limit digits)
        else
          match Py.skip_space rest with
          | [] => inr (sign * v)
          | _ :: _ => inl (Py.invalid_literal s)
          end
    end = inl ex -> ex = Py.invalid_literal s).
  { intros sign l Hl.
    destruct (Py.scan_digits true 0 0%N l) as [[[v digits] rest]|] eqn:Hscan;
      [|now intros [= <-]].
    apply scan_digits_count in Hscan.
    destruct (N.eqb digits 0); [now intros [= <-]|].
    destruct (N.ltb 0 limit && N.ltb limit digits) eqn:Hc.
    - apply andb_true_iff in Hc. destruct Hc as [H1 H2].
      apply N.ltb_lt in H1, H2. lia.
    - destruct (Py.skip_space rest); now intros [= <-]. }
  destruct l0 as [|c r]; [apply Hsign; simpl; lia|].
  destruct (Ascii.eqb c "+"%char); [apply Hsign; simpl; lia|].
  destruct (Ascii.eqb c "-"%char); apply Hsign; simpl; lia.
Qed.

Lemma int_uint_over_limit (limit : N) (u : Decimal.uint) :
  (0 < limit < N.of_nat (String.length (NilEmpty.string_of_uint u)))%N ->
  Py.int limit (NilEmpty.string_of_uint u)
  = inl (Py.exceeds_limit limit
           (N.of_nat (String.length (NilEmpty.string_of_uint u)))).
Proof.
  intros Hlimit.
  assert (Hu : u <> Decimal.Nil).
  { intros ->. simpl in Hlimit. lia. }
  pose proof (scan_digits_numeral u true 0%N (fun _ => Hu)) as Hscan.
  unfold Py.int.
  assert (Hhead :
    Py.skip_space (list_ascii_of_string (NilEmpty.string_of_uint u))
    = list_ascii_of_string (NilEmpty.string_of_uint u) /\
    match list_ascii_of_string (NilEmpty.string_of_uint u) with
    | c :: r =>
        if Ascii.eqb c "+"%char then (1, r)
        else if Ascii.eqb c "-"%char then (-1, r)
        else (1, list_ascii_of_string (NilEmpty.string_of_uint u))
    | [] => (1, list_ascii_of_string (NilEmpty.string_of_uint u))
    end = (1, list_ascii_of_string (NilEmpty.string_of_uint u))).
  { destruct u; [now elim Hu | split; reflexivity ..]. }
  destruct Hhead as [Hskip Hsign]. rewrite Hskip, Hsign, Hscan.
  rewrite N.add_0_l.
  destruct (N.eqb_spec (N.of_nat (String.length (NilEmpty.string_of_uint u))) 0)
    as [H0|_]; [lia|].
  destruct (N.ltb_spec 0 limit); [|lia].
  destruct (N.ltb_spec limit
              (N.of_nat (String.length (NilEmpty.string_of_uint u)))); [|lia].
  reflexivity.
Qed.

(** A decimal numeral with more digits than the limit is refused. *)
Lemma int_numeral_over_limit (limit n : N) :
  (0 < limit < N.of_nat (String.length (Py.N_to_string n)))%N ->
  Py.int limit (Py.N_to_string n)
  = inl (Py.exceeds_limit limit (N.of_nat (String.length (Py.N_to_string n)))).
Proof.
  unfold Py.N_to_string.
  destruct (N.to_uint n) as [|d|d|d|d|d|d|d|d|d|d].
  1: change (NilZero.string_of_uint Decimal.Nil)
       with (NilEmpty.string_of_uint (Decimal.D0 Decimal.Nil)).
  all: unfold NilZero.string_of_uint; apply int_uint_over_limit.
Qed.

(** X10: with a non-empty query, a selector that [int] refuses and that
    has no more characters than the digit limit (or any refused selector
    when no limit is set) is answered, without a call, with the "invalid
    literal" text, which quotes the selector as [repr] prints it, cut at
    200 characters; and a decimal numeral with more digits than the limit
    is answered, without a call, with the "Exceeds the limit" text that
    names the limit and the number of digits of the numeral. *)
Theorem X10_refused_selector_message
    (form : Form) (log : list Call) (s : string) :
  form_get_default form "search_query" "" <> "" ->
  form_get_default form "search_engine" "" = s ->
  (forall ex,
     s <> "" ->
     (int_max_str_digits = 0 \/
      N.of_nat (String.length s) <= int_max_str_digits)%N ->
     Py.int int_max_str_digits s = inl ex ->
     fst (handle_search form log) = log /\
     outcome (snd (handle_search form log))
     = Some (Failure ("invalid literal for int() with base 10: "
                      ++ substring 0 200 (Py.repr s)))) /\
  (forall n,
     s = Py.N_to_string n ->
     (0 < int_max_str_digits < N.of_nat (String.length s))%N ->
     fst (handle_search form log) = log /\
     outcome (snd (handle_search form log))
     = Some (Failure
               ("Exceeds the limit (" ++ Py.N_to_string int_max_str_digits
                ++ " digits) for integer string conversion: value has "
                ++ Py.N_to_string (N.of_nat (String.length s))
                ++ " digits; use sys.set_int_max_str_digits() to increase the limit"))).
Proof.
  intros Hq Hs. subst s. split.
  - intros ex Hne Hlimit Hi.
    destruct (handle_search_bad_literal form log ex Hq Hne Hi) as [_ ->].
    split; [reflexivity|].
    rewrite (int_refused_within_limit _ _ _ Hlimit Hi). reflexivity.
  - intros n Hn Hlimit.
    assert (Hne : form_get_default form "search_engine" "" <> "").
    { intros He. rewrite He in Hlimit. simpl in Hlimit. lia. }
    pose proof (int_numeral_over_limit int_max_str_digits n) as Hi.
    rewrite <- Hn in Hi. specialize (Hi Hlimit).
    destruct (handle_search_bad_literal form log _ Hq Hne Hi) as [_ ->].
    split; reflexivity.
Qed.

(** X11: the port is the value of [PORT] when the variable holds a
    decimal numeral, and 8080 only when the variable is not set; a
    variable that is set but empty is an error, not the default. *)
Theorem X11_port_from_the_environment :
  (forall n : N,
     (int_max_str_digits = 0 \/
      N.of_nat (String.length (Py.N_to_string n)) <= int_max_str_digits)%N ->
     server_port (Some (Py.N_to_string n)) = inr (Z.of_N n)) /\
  (forall PORT p,
     server_port PORT = inr p ->
     PORT <> Some "" /\ (PORT = None -> p = 8080)) /\
  server_port None = inr 8080.
Proof.
  split; [|split].
  - intros n Hlimit. now apply int_numeral.
  - intros PORT p Hp. split.
    + intros ->. simpl in Hp. rewrite int_empty in Hp. discriminate Hp.
    + intros ->. simpl in Hp. congruence.
  - reflexivity.
Qed.

(** An index and the same index less [len] select the same entry. *)
Lemma list_getitem_alias {A : Type} (lst : list A) (i : Z) :
  Z.of_nat (length lst) <= Py.PY_SSIZE_T_MAX ->
  0 <= i < Z.of_nat (length lst) ->
  Py.list_getitem lst (i - Z.of_nat (length lst)) = Py.list_getitem lst i.
Proof.
  intros Hfit Hi.
  destruct (list_getitem_nonneg lst i Hi Hfit) as (x & Hx & ->).
  destruct (list_getitem_negative lst (i - Z.of_nat (length lst)))
    as (y & Hy & ->); [lia|exact Hfit|].
  replace (Z.of_nat (length lst) + (i - Z.of_nat (length lst))) with i in Hy by lia.
  congruence.
Qed.

(** X12: every engine of the directory answers to two selectors: its
    position [n] and the negative integer [n - len] lead to the same page
    and the same call. *)
Theorem X12_position_and_negative_alias
    (form1 form2 : Form) (log : list Call) (n : Z) :
  Z.of_nat (length CUSTOM_UI_DATASTORE_IDS) <= Py.PY_SSIZE_T_MAX ->
  (forall key,
     In key ["search_query"; "summary_model"; "summary_preamble"] ->
     form_get form1 key = form_get form2 key) ->
  0 <= n < Z.of_nat (length CUSTOM_UI_DATASTORE_IDS) ->
  Py.int int_max_str_digits (form_get_default form1 "search_engine" "") = inr n ->
  Py.int int_max_str_digits (form_get_default form2 "search_engine" "")
  = inr (n - Z.of_nat (length CUSTOM_UI_DATASTORE_IDS)) ->
  handle_search form1 log = handle_search form2 log.
Proof.
  intros Hfit Hsame Hn H1 H2.
  pose proof (int_ok_nonempty _ _ _ H1) as Hs1.
  pose proof (int_ok_nonempty _ _ _ H2) as Hs2.
  apply not_false_iff in Hs1, Hs2.
  unfold handle_search, search_genappbuilder, bind, eval.
  rewrite Hs1, Hs2, H1, H2, (list_getitem_alias _ _ Hfit Hn).
  unfold form_get_default.
  rewrite (Hsame "search_query"), (Hsame "summary_model"),
          (Hsame "summary_preamble") by (simpl; auto 6).
  reflexivity.
Qed.

(** X13: with an empty directory no request ever reaches the search
    call, whatever is submitted. *)
Theorem X13_empty_directory_never_calls (form : Form) (log : list Call) :
  CUSTOM_UI_DATASTORE_IDS = [] ->
  fst (handle_search form log) = log /\
  exists msg, outcome (snd (handle_search form log)) = Some (Failure msg).
Proof.
  intros Hempty.
  destruct (string_dec (form_get_default form "search_query" "") "") as [Hq|Hq].
  { destruct (handle_search_no_query form log Hq) as [H1 H2]. eauto. }
  destruct (string_dec (form_get_default form "search_engine" "") "") as [He|He].
  { destruct (handle_search_no_engine form log Hq He) as [H1 H2]. eauto. }
  destruct (Py.int int_max_str_digits (form_get_default form "search_engine" ""))
    as [ex|n] eqn:Hi.
  { destruct (handle_search_bad_literal form log ex Hq He Hi) as [_ ->].
    split; [reflexivity|]. eexists. apply outcome_handle_exception_from. }
  destruct (Py.list_getitem CUSTOM_UI_DATASTORE_IDS n) as [ex|d] eqn:Hd.
  { destruct (handle_search_bad_index form log n ex Hq Hi Hd) as [_ ->].
    split; [reflexivity|]. eexists. apply outcome_handle_exception_from. }
  apply list_getitem_In in Hd. rewrite Hempty in Hd. destruct Hd.
Qed.

End App.

(* ===================================================================== *)
(** * Concrete runs *)
(* ===================================================================== *)

Local Abbreviation demo_search_genappbuilder :=
  (search_genappbuilder (list string) string string string string string unit
     "demo-project" "global" Demo.directory ["preview"%string] 4300%N
     Demo.backend).

Local Abbreviation demo_handle_search :=
  (handle_search (list string) string string string string string unit
     "demo-project" "global" Demo.directory ["preview"%string] tt [] 4300%N
     Demo.backend).

Local Abbreviation demo_handle_exception :=
  (handle_exception (list string) string string string string string unit
     Demo.directory ["preview"%string] tt []).

Local Abbreviation demo_outcome :=
  (outcome (list string) string string string string string unit).

Local Abbreviation demo_Failure := (Failure (list string) string string string string).

Local Abbreviation demo_Success := (Success (list string) string string string string).

(** Absent and empty optional fields reach the search call as they are. *)
Lemma C1_witness :
  let form := [("search_query", "rocq"); ("search_engine", "1");
               ("summary_preamble", "")] in
  fst (demo_handle_search form [])
  = [mkCall "demo-project" "global" "contracts_1696522322195" "rocq"
       None (Some "")] /\
  demo_outcome (snd (demo_handle_search form []))
  = Some (demo_Success ["contracts_1696522322195/doc-1"] "summary of rocq"
            "https://discoveryengine.googleapis.com/contracts_1696522322195"
            "{request}" "{response}" "rocq").
Proof.
  intros form.
  destruct (C1_dispatch_once_and_map_results
              (list string) string string string string string unit
              "demo-project" "global" Demo.directory ["preview"] tt [] 4300%N
              Demo.backend form [] "rocq" "1" 1
              (mkDatastore "Contracts" "contracts_1696522322195")
              eq_refl ltac:(discriminate) eq_refl eq_refl eq_refl)
    as [Hlog Hok].
  split; [exact Hlog|]. apply Hok. reflexivity.
Defined.

Lemma C2_witness :
  fst (demo_handle_search [("search_engine", "0")] []) = [] /\
  demo_outcome (snd (demo_handle_search [("search_engine", "0")] []))
  = Some (demo_Failure "No query provided").
Proof.
  apply (C2_missing_query
           (list string) string string string string string unit
           "demo-project" "global" Demo.directory ["preview"] tt [] 4300%N
           Demo.backend [("search_engine", "0")] []).
  left. reflexivity.
Defined.

Lemma C3_witness :
  (fst (demo_handle_search [("search_query", "rocq"); ("search_engine", "")] []) = [] /\
   demo_outcome
     (snd (demo_handle_search [("search_query", "rocq"); ("search_engine", "")] []))
   = Some (demo_Failure "No search engine selected")) /\
  (fst (demo_handle_search [] []) = [] /\
   demo_outcome (snd (demo_handle_search [] []))
   = Some (demo_Failure "No query provided")).
Proof.
  split.
  - refine (proj1 (C3_missing_engine
             (list string) string string string string string unit
             "demo-project" "global" Demo.directory ["preview"] tt [] 4300%N
             Demo.backend [("search_query", "rocq"); ("search_engine", "")] [] _)
             "rocq" eq_refl _).
    + right. reflexivity.
    + discriminate.
  - refine (proj2 (C3_missing_engine
             (list string) string string string string string unit
             "demo-project" "global" Demo.directory ["preview"] tt [] 4300%N
             Demo.backend [] [] _) _).
    + left. reflexivity.
    + left. reflexivity.
Defined.

(** The selector ["-1"] is no zero-based index, and yet the search call
    is made, for the last engine of the directory. *)
Lemma C4_counterexample :
  Py.int 4300 "-1" = inr (-1) /\
  ~ (0 <= -1 < Z.of_nat (length Demo.directory)) /\
  fst (demo_handle_search (Demo.form_of "rocq" "-1") [])
  = [mkCall "demo-project" "global" "contracts_1696522322195" "rocq" None None] /\
  ~ (fst (demo_handle_search (Demo.form_of "rocq" "-1") []) = [] /\
     exists msg,
       demo_outcome (snd (demo_handle_search (Demo.form_of "rocq" "-1") []))
       = Some (demo_Failure msg) /\ msg <> "").
Proof.
  split; [reflexivity|]. split; [lia|]. split; [reflexivity|].
  intros [Hlog _]. discriminate Hlog.
Qed.

Lemma C4_witness :
  (fst (demo_handle_search (Demo.form_of "rocq" "one") []) = [] /\
   exists msg,
     demo_outcome (snd (demo_handle_search (Demo.form_of "rocq" "one") []))
     = Some (demo_Failure msg) /\ msg <> "") /\
  (fst (demo_handle_search (Demo.form_of "rocq" "2") []) = [] /\
   exists msg,
     demo_outcome (snd (demo_handle_search (Demo.form_of "rocq" "2") []))
     = Some (demo_Failure msg) /\ msg <> "").
Proof.
  split.
  - apply (C4_unresolvable_selector
             (list string) string string string string string unit
             "demo-project" "global" Demo.directory ["preview"] tt [] 4300%N
             Demo.backend (Demo.form_of "rocq" "one") [] "one" eq_refl).
    left. eexists. reflexivity.
  - apply (C4_unresolvable_selector
             (list string) string string string string string unit
             "demo-project" "global" Demo.directory ["preview"] tt [] 4300%N
             Demo.backend (Demo.form_of "rocq" "2") [] "2" eq_refl).
    right. exists 2. split; [reflexivity|]. right. simpl. lia.
Defined.

Lemma C5_witness :
  demo_outcome (snd (demo_handle_search (Demo.form_of "quota" "0") []))
  = Some (demo_Failure "Quota exceeded for search requests").
Proof.
  refine (proj2 (proj2 (C5_quota_message_and_precedence
            (list string) string string string string string unit
            "demo-project" "global" Demo.directory ["preview"] tt [] 4300%N
            Demo.backend (Demo.form_of "quota" "0") []
            [mkCall "demo-project" "global" "alphabet-pdfs_1695783402380"
               "quota" None None]
            (Demo.ResourceExhausted "Quota exceeded for search requests")
            _)) "Quota exceeded for search requests" _ _);
    reflexivity.
Defined.

(** C6: the search call raises an exception created without arguments,
    which has no HTTP description, no quota message field and the empty
    text.  The handler first stores "An Unknown Error Occurred" and then
    overwrites it with the text of the exception: the failure shows the
    empty message, not the fallback. *)
Theorem C6_bare_exception_shows_empty_message :
  Demo.backend
    (mkCall "demo-project" "global" "alphabet-pdfs_1695783402380" "silent"
       None None) = inl Demo.bare_exception /\
  Py.http_description Demo.bare_exception = None /\
  Py.quota_message Demo.bare_exception = None /\
  Py.str Demo.bare_exception = "" /\
  fst (demo_handle_search (Demo.form_of "silent" "0") [])
  = [mkCall "demo-project" "global" "alphabet-pdfs_1695783402380" "silent"
       None None] /\
  demo_outcome (snd (demo_handle_search (Demo.form_of "silent" "0") []))
  = Some (demo_Failure "") /\
  demo_outcome (snd (demo_handle_search (Demo.form_of "silent" "0") []))
  <> Some (demo_Failure "An Unknown Error Occurred").
Proof.
  repeat (split; [reflexivity|]). discriminate.
Qed.

Lemma C7_witness :
  demo_handle_search (Demo.form_of "rocq" "1.5") []
  = ([], demo_handle_exception (Py.invalid_literal "1.5")) /\
  exists msg,
    demo_outcome (demo_handle_exception (Py.invalid_literal "1.5"))
    = Some (demo_Failure msg).
Proof.
  apply (proj2 (C7_always_an_outcome
           (list string) string string string string string unit
           "demo-project" "global" Demo.directory ["preview"] tt [] 4300%N
           Demo.backend (Demo.form_of "rocq" "1.5") [])).
  reflexivity.
Defined.

Local Abbreviation demo_globals :=
  (module_globals string unit "demo-project" "global" Demo.directory
     ["preview"%string] tt []).

Local Abbreviation demo_run_handle_search :=
  (run_handle_search (list string) string string string string string unit
     4300%N Demo.backend).

(** The answer after an earlier call is the answer on an empty log, and
    it is the page of [handle_search]. *)
Lemma C8_witness :
  let earlier := mkCall "demo-project" "global" "contracts_1696522322195"
                   "coq" None None in
  snd (demo_run_handle_search (Demo.form_of "rocq" "1")
         (mkWorld string unit demo_globals []))
  = snd (demo_run_handle_search (Demo.form_of "rocq" "1")
           (mkWorld string unit demo_globals [earlier])) /\
  snd (demo_run_handle_search (Demo.form_of "rocq" "1")
         (mkWorld string unit demo_globals [earlier]))
  = inr (snd (demo_handle_search (Demo.form_of "rocq" "1") [earlier])).
Proof.
  intros earlier.
  destruct (C8_same_input_same_outcome
              (list string) string string string string string unit
              "demo-project" "global" Demo.directory ["preview"] tt [] 4300%N
              Demo.backend (Demo.form_of "rocq" "1")
              (mkWorld string unit demo_globals [earlier]))
    as (_ & _ & _ & Hsame & _ & Hmodule).
  split.
  - apply Hsame. reflexivity.
  - apply Hmodule. reflexivity.
Defined.

(** The bindings are read when the request runs: once [NAV_LINKS] has
    been emptied, the title cannot be computed any more, neither by the
    view nor by the handler, and the exception leaves the request. *)
Example emptied_nav_links_leave_the_request :
  demo_run_handle_search (Demo.form_of "" "")
    (mkWorld string unit
       (mkGlobals string unit "demo-project" "global" Demo.directory
          ["preview"%string] (mkFormOptions unit [tt] tt)
          ["Alphabet Investor PDFs"; "Contracts"]%string [])
       [])
  = (mkWorld string unit
       (mkGlobals string unit "demo-project" "global" Demo.directory
          ["preview"%string] (mkFormOptions unit [tt] tt)
          ["Alphabet Investor PDFs"; "Contracts"]%string [])
       [],
     inl (Py.IndexError "list index out of range")).
Proof. reflexivity. Qed.

Lemma C9_witness :
  exists d,
    nth_error Demo.directory (Z.to_nat (Z.of_nat (length Demo.directory) + -1))
    = Some d /\
    fst (demo_handle_search (Demo.form_of "rocq" " -1") [])
    = [mkCall "demo-project" "global" (engine_id d) "rocq" None None].
Proof.
  apply (C9_negative_selector_resolves
           (list string) string string string string string unit
           "demo-project" "global" Demo.directory ["preview"] tt [] 4300%N
           Demo.backend (Demo.form_of "rocq" " -1") [] "rocq" " -1" (-1)).
  - vm_compute. discriminate.
  - reflexivity.
  - discriminate.
  - reflexivity.
  - reflexivity.
  - simpl. lia.
Defined.

Lemma C10_witness :
  demo_outcome (demo_handle_exception Demo.bare_exception)
  = Some (demo_Failure "").
Proof.
  refine (proj1 (C10_fallback_assignment_is_dead
            (list string) string string string string string unit
            Demo.directory ["preview"] tt [] Demo.bare_exception) _ _);
    reflexivity.
Defined.

(** ** Concrete runs for the further properties *)

Lemma X1_witness :
  fst (demo_handle_search (Demo.form_of "rocq" "-2") []) <> [].
Proof.
  apply (X1_call_made_iff
           (list string) string string string string string unit
           "demo-project" "global" Demo.directory ["preview"] tt [] 4300%N
           Demo.backend (Demo.form_of "rocq" "-2") []).
  - vm_compute. discriminate.
  - split; [discriminate|]. exists (-2). split; [reflexivity|]. simpl. lia.
Defined.

Lemma X2_witness :
  "rocq" = form_get_default (Demo.form_of "rocq" "0") "search_query" "" /\
  Demo.backend
    (mkCall "demo-project" "global" "alphabet-pdfs_1695783402380" "rocq" None None)
  = inr (["alphabet-pdfs_1695783402380/doc-1"], "summary of rocq",
         "https://discoveryengine.googleapis.com/alphabet-pdfs_1695783402380",
         "{request}", "{response}").
Proof.
  destruct (X2_success_comes_from_the_call
              (list string) string string string string string unit
              "demo-project" "global" Demo.directory ["preview"] tt [] 4300%N
              Demo.backend (Demo.form_of "rocq" "0") []
              ["alphabet-pdfs_1695783402380/doc-1"] "summary of rocq"
              "https://discoveryengine.googleapis.com/alphabet-pdfs_1695783402380"
              "{request}" "{response}" "rocq" eq_refl)
    as (Hq & _ & _).
  split; [exact Hq|reflexivity].
Defined.

Lemma X3_witness :
  let c := mkCall "demo-project" "global" "contracts_1696522322195" "quota"
             None None in
  In c [] \/
  (call_project_id c = "demo-project" /\ call_location c = "global" /\
   In (call_engine_id c) (map engine_id Demo.directory) /\
   call_search_query c = form_get_default (Demo.form_of "quota" "1") "search_query" "" /\
   call_search_query c <> "").
Proof.
  intros c.
  apply (X3_calls_stay_within_the_configuration
           (list string) string string string string string unit
           "demo-project" "global" Demo.directory ["preview"] tt [] 4300%N
           Demo.backend (Demo.form_of "quota" "1") [] c).
  simpl. left. reflexivity.
Defined.

Lemma X4_witness :
  exists d,
    nth_error Demo.directory 1 = Some d /\ ds_name d = "Contracts" /\
    fst (demo_handle_search (Demo.form_of "rocq" "1") [])
    = [mkCall "demo-project" "global" (engine_id d) "rocq" None None].
Proof.
  apply (X4_listed_position_selects_its_engine
           (list string) string string string string string unit
           "demo-project" "global" Demo.directory ["preview"] tt [] 4300%N
           Demo.backend (Demo.form_of "rocq" "1") [] "rocq" 1%nat "Contracts").
  - vm_compute. discriminate.
  - right. vm_compute. discriminate.
  - reflexivity.
  - reflexivity.
  - discriminate.
  - reflexivity.
Defined.

Lemma X7_witness :
  demo_handle_search (Demo.form_of "rocq" "1") []
  = demo_handle_search
      (("page", "3") :: Demo.form_of "rocq" "1" ++ [("search_query", "other")])%list
      [].
Proof.
  apply (X7_only_four_fields_are_read
           (list string) string string string string string unit
           "demo-project" "global" Demo.directory ["preview"] tt [] 4300%N
           Demo.backend).
  intros key [<-|[<-|[<-|[<-|[]]]]]; reflexivity.
Defined.

Lemma X8_witness :
  demo_handle_search (Demo.form_of "rocq" " +1 ") []
  = demo_handle_search (Demo.form_of "rocq" "0_1") [].
Proof.
  apply (X8_selector_counts_by_its_value
           (list string) string string string string string unit
           "demo-project" "global" Demo.directory ["preview"] tt [] 4300%N
           Demo.backend (Demo.form_of "rocq" " +1 ") (Demo.form_of "rocq" "0_1")
           [] 1).
  - intros key [<-|[<-|[<-|[]]]]; reflexivity.
  - reflexivity.
  - reflexivity.
Defined.

Lemma X9_witness :
  fst (demo_handle_search (Demo.form_of "rocq" "2") []) = [] /\
  demo_outcome (snd (demo_handle_search (Demo.form_of "rocq" "2") []))
  = Some (demo_Failure "list index out of range").
Proof.
  apply (X9_out_of_range_message
           (list string) string string string string string unit
           "demo-project" "global" Demo.directory ["preview"] tt [] 4300%N
           Demo.backend (Demo.form_of "rocq" "2") [] 2).
  - discriminate.
  - reflexivity.
  - right. simpl. lia.
Defined.

Lemma X10_witness :
  (fst (demo_handle_search (Demo.form_of "rocq" "one") []) = [] /\
   demo_outcome (snd (demo_handle_search (Demo.form_of "rocq" "one") []))
   = Some (demo_Failure "invalid literal for int() with base 10: 'one'")) /\
  (fst (handle_search (list string) string string string string string unit
          "demo-project" "global" Demo.directory ["preview"] tt [] 3%N
          Demo.backend (Demo.form_of "rocq" "12345") []) = [] /\
   demo_outcome
     (snd (handle_search (list string) string string string string string unit
             "demo-project" "global" Demo.directory ["preview"] tt [] 3%N
             Demo.backend (Demo.form_of "rocq" "12345") []))
   = Some (demo_Failure
             "Exceeds the limit (3 digits) for integer string conversion: value has 5 digits; use sys.set_int_max_str_digits() to increase the limit")).
Proof.
  split.
  - refine (proj1 (X10_refused_selector_message
             (list string) string string string string string unit
             "demo-project" "global" Demo.directory ["preview"] tt [] 4300%N
             Demo.backend (Demo.form_of "rocq" "one") [] "one" _ eq_refl)
             (Py.invalid_literal "one") _ _ eq_refl).
    + discriminate.
    + discriminate.
    + right. vm_compute. discriminate.
  - refine (proj2 (X10_refused_selector_message
             (list string) string string string string string unit
             "demo-project" "global" Demo.directory ["preview"] tt [] 3%N
             Demo.backend (Demo.form_of "rocq" "12345") [] "12345" _ eq_refl)
             12345%N eq_refl _).
    + discriminate.
    + vm_compute. split; reflexivity.
Defined.

Lemma X11_witness : server_port 4300 (Some "5000") = inr 5000.
Proof.
  apply (proj1 (X11_port_from_the_environment 4300) 5000%N).
  right. vm_compute. discriminate.
Defined.

Lemma X12_witness :
  demo_handle_search (Demo.form_of "rocq" "0") []
  = demo_handle_search (Demo.form_of "rocq" "-2") [].
Proof.
  apply (X12_position_and_negative_alias
           (list string) string string string string string unit
           "demo-project" "global" Demo.directory ["preview"] tt [] 4300%N
           Demo.backend (Demo.form_of "rocq" "0") (Demo.form_of "rocq" "-2")
           [] 0).
  - vm_compute. discriminate.
  - intros key [<-|[<-|[<-|[]]]]; reflexivity.
  - simpl. lia.
  - reflexivity.
  - reflexivity.
Defined.

Lemma X13_witness :
  fst (handle_search (list string) string string string string string unit
         "demo-project" "global" [] ["preview"] tt [] 4300%N Demo.backend
         (Demo.form_of "rocq" "0") []) = [] /\
  exists msg,
    demo_outcome
      (snd (handle_search (list string) string string string string string unit
              "demo-project" "global" [] ["preview"] tt [] 4300%N Demo.backend
              (Demo.form_of "rocq" "0") []))
    = Some (demo_Failure msg).
Proof.
  apply (X13_empty_directory_never_calls
           (list string) string string string string string unit
           "demo-project" "global" [] ["preview"] tt [] 4300%N
           Demo.backend (Demo.form_of "rocq" "0") []).
  reflexivity.
Defined.
